(** * resin-sdk: the device model (lib/models/device.js)

    A shallow embedding of the device model of the SDK.  The module is
    integration glue: every operation builds a request and hands it to
    one of two collaborators, the resource/query client [pine] and the
    HTTP layer [request].  The embedding keeps JavaScript's dynamic
    values, threads an explicit world (remote state, log of the
    requests issued, clock) through the promise chains, and keeps apart
    a promise that is rejected from an exception thrown synchronously. *)

From Stdlib Require Import ZArith List String Ascii Bool Lia.
From Stdlib Require Import DecimalString.
Import ListNotations.

Local Open Scope string_scope.
Local Open Scope Z_scope.

#[local] Set Warnings "-register-all".

(** ** JavaScript values *)

Module Js.

(** Numbers are the integers the device model handles (ids, HTTP status
    codes, millisecond timestamps).  An object is the list of its own
    properties in insertion order. *)
Inductive value : Type :=
| VUndefined
| VNull
| VBool (b : bool)
| VNum (n : Z)
| VStr (s : string)
| VArr (items : list value)
| VObj (fields : list (string * value)).

(** The errors the model can meet: those of balena-errors it raises
    itself, the built-in [Error] and [TypeError], and the error of the
    request layer, which carries the HTTP status code of the response. *)
Inductive error : Type :=
| BalenaDeviceNotFound (uuidOrId : value)
| BalenaAmbiguousDevice (uuidOrId : value)
| BalenaSupervisorLockedError
| BalenaInvalidParameterError (parameterName : string) (suppliedValue : value)
| Error (message : string)
| TypeError (message : string)
| BalenaRequestError (statusCode : Z) (responseBody : value).

(** [x == null] *)
Definition is_nullish (v : value) : bool :=
  match v with
  | VUndefined | VNull => true
  | _ => false
  end.

(** [typeof x] *)
Definition typeof (v : value) : string :=
  match v with
  | VUndefined => "undefined"
  | VNull => "object"
  | VBool _ => "boolean"
  | VNum _ => "number"
  | VStr _ => "string"
  | VArr _ => "object"
  | VObj _ => "object"
  end.

(** [Boolean(x)] *)
Definition ToBoolean (v : value) : bool :=
  match v with
  | VUndefined | VNull => false
  | VBool b => b
  | VNum n => negb (n =? 0)
  | VStr s => negb (String.eqb s "")
  | VArr _ | VObj _ => true
  end.

Definition Z_to_string (n : Z) : string := NilZero.string_of_int (Z.to_int n).

Definition join (sep : string) (parts : list string) : string :=
  String.concat sep parts.

(** [String(x)], also the conversion of a template literal's hole. *)
Fixpoint ToString (v : value) : string :=
  match v with
  | VUndefined => "undefined"
  | VNull => "null"
  | VBool true => "true"
  | VBool false => "false"
  | VNum n => Z_to_string n
  | VStr s => s
  | VArr items =>
      join ","
        (map (fun item => if is_nullish item then "" else ToString item) items)
  | VObj _ => "[object Object]"
  end.

Fixpoint lookup (key : string) (fields : list (string * value)) : option value :=
  match fields with
  | [] => None
  | (k, v) :: rest => if String.eqb k key then Some v else lookup key rest
  end.

Definition str_length (s : string) : Z := Z.of_nat (String.length s).

(** [o.key] for a named property.  Reading a property of [undefined] or
    [null] throws a TypeError; a missing property reads as [undefined]. *)
Definition member (o : value) (key : string) : error + value :=
  match o with
  | VUndefined | VNull =>
      inl (TypeError ("Cannot read property '" ++ key ++ "' of " ++ ToString o))
  | VObj fields =>
      inr (match lookup key fields with Some v => v | None => VUndefined end)
  | VArr items =>
      inr (if String.eqb key "length" then VNum (Z.of_nat (List.length items))
           else VUndefined)
  | VStr s =>
      inr (if String.eqb key "length" then VNum (str_length s) else VUndefined)
  | VBool _ | VNum _ => inr VUndefined
  end.

(** [o[i]] for an array index. *)
Definition index (o : value) (i : nat) : error + value :=
  match o with
  | VUndefined | VNull =>
      inl (TypeError ("Cannot read property '" ++ Z_to_string (Z.of_nat i)
                        ++ "' of " ++ ToString o))
  | VArr items => inr (nth i items VUndefined)
  | VStr s =>
      inr (match String.get i s with
           | Some c => VStr (String c EmptyString)
           | None => VUndefined
           end)
  | VObj fields =>
      inr (match lookup (Z_to_string (Z.of_nat i)) fields with
           | Some v => v
           | None => VUndefined
           end)
  | VBool _ | VNum _ => inr VUndefined
  end.

(** [o?.key] *)
Definition optional_member (o : value) (key : string) : error + value :=
  if is_nullish o then inr VUndefined else member o key.

(** [a === n] against a number. *)
Definition strict_eq_num (a : value) (n : Z) : bool :=
  match a with
  | VNum m => m =? n
  | _ => false
  end.

(** The result of a conversion to a number: NaN, an infinity, or the
    decimal [mantissa * 10 ^ exponent].  Conversions are exact: the
    rounding of a literal to the nearest double is left out. *)
Inductive number : Type :=
| NaN
| Infinity (negative : bool)
| Decimal (mantissa exponent : Z).

Definition code (c : ascii) : Z := Z.of_nat (nat_of_ascii c).

(** White space and line terminators, within ASCII. *)
Definition is_space (c : ascii) : bool :=
  let n := code c in
  (n =? 32) || ((9 <=? n) && (n <=? 13)).

Definition decimal_digit (c : ascii) : option Z :=
  let n := code c in
  if (48 <=? n) && (n <=? 57) then Some (n - 48) else None.

Definition hex_digit (c : ascii) : option Z :=
  let n := code c in
  if (48 <=? n) && (n <=? 57) then Some (n - 48)
  else if (97 <=? n) && (n <=? 102) then Some (n - 87)
  else if (65 <=? n) && (n <=? 70) then Some (n - 55)
  else None.

Definition octal_digit (c : ascii) : option Z :=
  let n := code c in
  if (48 <=? n) && (n <=? 55) then Some (n - 48) else None.

Definition binary_digit (c : ascii) : option Z :=
  let n := code c in
  if (48 <=? n) && (n <=? 49) then Some (n - 48) else None.

(** The longest run of digits at the head of the text, and the rest. *)
Fixpoint take_digits (digit : ascii -> option Z) (text : list ascii)
  : list Z * list ascii :=
  match text with
  | [] => ([], [])
  | c :: rest =>
      match digit c with
      | Some d => let (ds, rest') := take_digits digit rest in (d :: ds, rest')
      | None => ([], text)
      end
  end.

Definition digits_value (base : Z) (digits : list Z) : Z :=
  fold_left (fun acc d => acc * base + d) digits 0.

Fixpoint drop_spaces (text : list ascii) : list ascii :=
  match text with
  | c :: rest => if is_space c then drop_spaces rest else text
  | [] => []
  end.

Definition trim (text : list ascii) : list ascii :=
  rev (drop_spaces (rev (drop_spaces text))).

(** A literal in base 16, 8 or 2, after its prefix: digits only, and at
    least one. *)
Definition non_decimal_literal (base : Z) (digit : ascii -> option Z)
    (text : list ascii) : number :=
  match take_digits digit text with
  | ((_ :: _) as digits, []) => Decimal (digits_value base digits) 0
  | _ => NaN
  end.

(** StrUnsignedDecimalLiteral: [Infinity], or digits with an optional
    fraction and an optional exponent; a lone dot is no number. *)
Definition unsigned_decimal_literal (text : list ascii) : number :=
  if String.eqb (string_of_list_ascii text) "Infinity" then Infinity false
  else
    let (whole, after_whole) := take_digits decimal_digit text in
    let '(fraction, after_fraction) :=
      match after_whole with
      | "."%char :: rest => take_digits decimal_digit rest
      | _ => ([], after_whole)
      end in
    match whole, fraction with
    | [], [] => NaN
    | _, _ =>
        let mantissa := digits_value 10 (whole ++ fraction) in
        let shift := Z.of_nat (List.length fraction) in
        match after_fraction with
        | [] => Decimal mantissa (- shift)
        | e :: after_e =>
            if Ascii.eqb e "e" || Ascii.eqb e "E"
            then
              let '(sign, exponent_text) :=
                match after_e with
                | "+"%char :: rest => (1, rest)
                | "-"%char :: rest => (-1, rest)
                | _ => (1, after_e)
                end in
              match take_digits decimal_digit exponent_text with
              | ((_ :: _) as digits, []) =>
                  Decimal mantissa (sign * digits_value 10 digits - shift)
              | _ => NaN
              end
            else NaN
        end
    end.

Definition negate (x : number) : number :=
  match x with
  | NaN => NaN
  | Infinity negative => Infinity (negb negative)
  | Decimal mantissa exponent => Decimal (- mantissa) exponent
  end.

(** The conversion of a string to a number: white space around the
    literal is dropped, the empty string is 0, a sign goes with a
    decimal literal only. *)
Definition StringToNumber (s : string) : number :=
  match trim (list_ascii_of_string s) with
  | [] => Decimal 0 0
  | "+"%char :: rest => unsigned_decimal_literal rest
  | "-"%char :: rest => negate (unsigned_decimal_literal rest)
  | "0"%char :: x :: rest =>
      if Ascii.eqb x "x" || Ascii.eqb x "X" then non_decimal_literal 16 hex_digit rest
      else if Ascii.eqb x "o" || Ascii.eqb x "O"
      then non_decimal_literal 8 octal_digit rest
      else if Ascii.eqb x "b" || Ascii.eqb x "B"
      then non_decimal_literal 2 binary_digit rest
      else unsigned_decimal_literal ("0"%char :: x :: rest)
  | text => unsigned_decimal_literal text
  end.

(** [ToNumber(x)].  An array converts through its string, a plain object
    through '[object Object]', which is no number. *)
Definition ToNumber (v : value) : number :=
  match v with
  | VNum m => Decimal m 0
  | VNull => Decimal 0 0
  | VBool true => Decimal 1 0
  | VBool false => Decimal 0 0
  | VUndefined => NaN
  | VStr s => StringToNumber s
  | VArr _ => StringToNumber (ToString v)
  | VObj _ => NaN
  end.

(** [a > n] and [a <= n] against an integer: false when [a] is NaN. *)
Definition gt_num (a : value) (n : Z) : bool :=
  match ToNumber a with
  | NaN => false
  | Infinity negative => negb negative
  | Decimal m 0 => n <? m
  | Decimal m (Zpos e) => n <? m * 10 ^ Zpos e
  | Decimal m (Zneg e) => n * 10 ^ Zpos e <? m
  end.

Definition le_num (a : value) (n : Z) : bool :=
  match ToNumber a with
  | NaN => false
  | Infinity negative => negative
  | Decimal m 0 => m <=? n
  | Decimal m (Zpos e) => m * 10 ^ Zpos e <=? n
  | Decimal m (Zneg e) => m <=? n * 10 ^ Zpos e
  end.

(** [s.replace(/pat/, rep)] for a literal pattern without flags: the
    first occurrence is replaced, the rest of the string is kept. *)
Fixpoint replace_first (pat rep s : string) : string :=
  if String.prefix pat s
  then rep ++ String.substring (String.length pat) (String.length s - String.length pat) s
  else match s with
       | EmptyString => EmptyString
       | String c rest => String c (replace_first pat rep rest)
       end.

End Js.
Import Js.

(** ** Requests *)

(** Pine options: the declarative query parameters forwarded to the
    remote API's query endpoint. *)
Record PineOptions : Type := mkPineOptions {
  filter : option value;    (* $filter *)
  select : option value;    (* $select *)
  expand : option value;    (* $expand *)
  orderby : option value    (* $orderby *)
}.

(** [{}] *)
Definition no_options : PineOptions := mkPineOptions None None None None.

(** The argument of [pine.get], [pine.patch] and [pine.delete]. *)
Record PineParams : Type := mkPineParams {
  resource : string;
  id : option value;
  body : option value;
  options : option PineOptions
}.

(** The argument of [request.send]. *)
Record RequestParams : Type := mkRequestParams {
  method : string;
  url : string;
  baseUrl : string;
  requestBody : option value;
  timeout : option Z
}.

(** What leaves the SDK. *)
Inductive Effect : Type :=
| PineGet (params : PineParams)
| PinePatch (params : PineParams)
| PineDelete (params : PineParams)
| RequestSend (params : RequestParams).

(** ** The world and the collaborators *)

(** The remote side answers a request with an error or a value and moves
    to a new state. *)
Definition Handler (B Req : Type) : Type := Req -> B -> (error + value) * B.

(** What [getDeviceModel(deps, opts)] closes over, with the imports of
    the module that are not part of it: the helpers of [../util] it
    calls ([normalizeDeviceOsVersion], [isNotFoundResponse],
    [treatAsMissingDevice], [LOCKED_STATUS_CODE]) and the libraries
    [semver] and [url]. *)
Record Env (B : Type) : Type := mkEnv {
  (* deps *)
  pine_get_handler : Handler B PineParams;
  pine_patch_handler : Handler B PineParams;
  pine_delete_handler : Handler B PineParams;
  request_send_handler : Handler B RequestParams;
  (* opts *)
  apiUrl : string;
  opts_dashboardUrl : option string;
  (* ../util *)
  normalizeDeviceOsVersion : value -> value;
  isNotFoundResponse : error -> bool;
  treatAsMissingDevice : value -> error -> error + value;
  LOCKED_STATUS_CODE : Z;
  (* semver, url *)
  semver_lt : value -> string -> error + bool;
  url_resolve : string -> string -> string
}.

Arguments pine_get_handler {B} _.
Arguments pine_patch_handler {B} _.
Arguments pine_delete_handler {B} _.
Arguments request_send_handler {B} _.
Arguments apiUrl {B} _.
Arguments opts_dashboardUrl {B} _.
Arguments normalizeDeviceOsVersion {B} _.
Arguments isNotFoundResponse {B} _.
Arguments treatAsMissingDevice {B} _.
Arguments LOCKED_STATUS_CODE {B} _.
Arguments semver_lt {B} _.
Arguments url_resolve {B} _.

Record World (B : Type) : Type := mkWorld {
  backend : B;            (* state of the remote API and of the devices *)
  log : list Effect;      (* requests issued so far, oldest first *)
  now : Z                 (* Date.now() *)
}.

Arguments mkWorld {B} _ _ _.
Arguments backend {B} _.
Arguments log {B} _.
Arguments now {B} _.

(** ** Promises *)

(** A call either yields a promise that resolves or is rejected, or
    throws before it returns one. *)
Inductive Outcome (A : Type) : Type :=
| Resolved (a : A)
| Rejected (e : error)
| Thrown (e : error).

Arguments Resolved {A} _.
Arguments Rejected {A} _.
Arguments Thrown {A} _.

Definition Promise (B A : Type) : Type := World B -> Outcome A * World B.

Section Promises.
Context {B : Type}.

Definition ret {A} (a : A) : Promise B A := fun w => (Resolved a, w).

Definition throw {A} (e : error) : Promise B A := fun w => (Thrown e, w).

Definition bind {A C} (p : Promise B A) (k : A -> Promise B C) : Promise B C :=
  fun w =>
    match p w with
    | (Resolved a, w') => k a w'
    | (Rejected e, w') => (Rejected e, w')
    | (Thrown e, w') => (Thrown e, w')
    end.

(** A synchronous computation that returns or throws. *)
Definition sync {A} (r : error + A) : Promise B A :=
  match r with
  | inl e => throw e
  | inr a => ret a
  end.

(** [Promise.try(f)]: what [f] throws rejects the promise. *)
Definition Promise_try {A} (f : Promise B A) : Promise B A :=
  fun w =>
    match f w with
    | (Thrown e, w') => (Rejected e, w')
    | r => r
    end.

(** [p.then(k)] *)
Definition then_ {A C} (p : Promise B A) (k : A -> Promise B C) : Promise B C :=
  bind p (fun a => Promise_try (k a)).

(** [p.get(key)] and [p.get(i)] of bluebird. *)
Definition get_prop (p : Promise B value) (key : string) : Promise B value :=
  then_ p (fun o => sync (member o key)).

Definition get_index (p : Promise B value) (i : nat) : Promise B value :=
  then_ p (fun o => sync (index o i)).

(** [p.tap(k)] *)
Definition tap {A} (p : Promise B A) (k : A -> Promise B unit) : Promise B A :=
  then_ p (fun a => bind (k a) (fun _ => ret a)).

(** [p.return(v)] *)
Definition return_ {A C} (p : Promise B A) (v : C) : Promise B C :=
  then_ p (fun _ => ret v).

(** [p.catch(predicate, handler)]; [p.catch(ErrorClass, handler)] is the
    same with the [instanceof] test as predicate, and [p.catch(handler)]
    with the predicate that holds of every error. *)
Definition catch_ {A} (p : Promise B A) (predicate : error -> bool)
    (handler : error -> Promise B A) : Promise B A :=
  fun w =>
    match p w with
    | (Rejected e, w') =>
        if predicate e then Promise_try (handler e) w' else (Rejected e, w')
    | r => r
    end.

(** The characters of a string, as an iteration over it yields them. *)
Definition characters (s : string) : list value :=
  map (fun c => VStr (String c EmptyString)) (list_ascii_of_string s).

(** [p.map(f)] of bluebird for a synchronous [f]: the promise must
    resolve with an array or an iterable; a string is iterated character
    by character. *)
Definition map_ (p : Promise B value) (f : value -> value) : Promise B value :=
  then_ p (fun v =>
    match v with
    | VArr items => ret (VArr (map f items))
    | VStr text => ret (VArr (map f (characters text)))
    | _ => throw (TypeError "expecting an array or an iterable object")
    end).

(** [Date.now()] *)
Definition Date_now : Promise B Z := fun w => (Resolved (now w), w).

(** A call of a collaborator: the request is recorded, the remote side
    answers. *)
Definition call {Req} (record : Req -> Effect) (h : Handler B Req) (req : Req)
  : Promise B value :=
  fun w =>
    let (answer, b') := h req (backend w) in
    (match answer with
     | inl e => Rejected e
     | inr v => Resolved v
     end,
     mkWorld b' (log w ++ [record req]) (now w)).

End Promises.

Declare Scope promise_scope.
Delimit Scope promise_scope with promise.
Notation "x <- p ;; k" := (bind p (fun x => k))
  (at level 100, p at next level, right associativity) : promise_scope.
Notation "p ;; k" := (bind p (fun _ => k))
  (at level 100, right associativity) : promise_scope.

Local Open Scope promise_scope.

(** ** Helpers of [../util] *)

(** Modelled from the spec: [isId] of [../util] is not among the sources;
    the spec tells a numeric id from a uuid string, so an id is a value
    of type number. *)
Definition isId (v : value) : bool :=
  match v with
  | VNum _ => true
  | _ => false
  end.

Definition merge_override (default extra : option value) : option value :=
  match extra with
  | Some v => Some v
  | None => default
  end.

(** A $select that is not an array is wrapped in one; null and undefined
    are left as they are. *)
Definition select_as_array (v : value) : value :=
  if is_nullish v then v
  else match v with
       | VArr _ => v
       | _ => VArr [v]
       end.

(** [o[key] = v] on the properties of an object. *)
Fixpoint set_field (key : string) (v : value) (fields : list (string * value))
  : list (string * value) :=
  match fields with
  | [] => [(key, v)]
  | (k, old) :: rest =>
      if String.eqb k key then (key, v) :: rest
      else (k, old) :: set_field key v rest
  end.

Definition assign_fields (target source : list (string * value))
  : list (string * value) :=
  fold_left (fun result (kv : string * value) => set_field (fst kv) (snd kv) result)
    source target.

(** [o[key]] on a value that may not be an object. *)
Definition property (o : value) (key : string) : value :=
  match o with
  | VObj fields =>
      match lookup key fields with
      | Some v => v
      | None => VUndefined
      end
  | _ => VUndefined
  end.

Definition with_property (o : value) (key : string) (v : value) : value :=
  match o with
  | VObj fields => VObj (set_field key v fields)
  | _ => o
  end.

(** An $expand in any of its forms (a name, an array of names and
    objects, an object) as the properties of one object. *)
Definition convertExpandToObject (expandOption : value) : list (string * value) :=
  match expandOption with
  | VStr name => [(name, VObj [])]
  | VArr items =>
      fold_left
        (fun (result : list (string * value)) (option : value) =>
           assign_fields result
             match option with
             | VStr name => [(name, VObj [])]
             | VObj fields => fields
             | _ => []
             end)
        items []
  | VObj fields => fields
  | _ => []
  end.

(** The nesting of a value, which bounds the nesting of its $expand. *)
Fixpoint depth (v : value) : nat :=
  match v with
  | VArr items => S (fold_right (fun item n => Nat.max (depth item) n) O items)
  | VObj fields =>
      S (fold_right
           (fun (kv : string * value) n =>
              Nat.max (match kv with (_, item) => depth item end) n)
           O fields)
  | _ => O
  end.

(** The merge of two $expand: the expansions of both, and for a
    relationship that both expand, the caller's $select, both $filter,
    and the merge of the nested $expand. *)
Fixpoint mergeExpandOptions_upto (fuel : nat) (defaultExpand extraExpand : value)
  : value :=
  if is_nullish defaultExpand then extraExpand
  else
    match fuel with
    | O => VObj (assign_fields (convertExpandToObject defaultExpand)
                   (convertExpandToObject extraExpand))
    | S fuel' =>
        VObj
          (fold_left
             (fun (merged : list (string * value)) (kv : string * value) =>
                let expandKey := fst kv in
                let extraOptions := if ToBoolean (snd kv) then snd kv else VObj [] in
                let known := match lookup expandKey merged with
                             | Some o => o
                             | None => VUndefined
                             end in
                let options := if ToBoolean known then known else VObj [] in
                let options :=
                  if ToBoolean (property extraOptions "$select")
                  then with_property options "$select" (property extraOptions "$select")
                  else options in
                let options :=
                  if ToBoolean (property extraOptions "$filter")
                  then
                    with_property options "$filter"
                      (if ToBoolean (property options "$filter")
                       then VObj [("$and", VArr [property options "$filter";
                                                 property extraOptions "$filter"])]
                       else property extraOptions "$filter")
                  else options in
                let options :=
                  if ToBoolean (property extraOptions "$expand")
                  then
                    with_property options "$expand"
                      (mergeExpandOptions_upto fuel' (property options "$expand")
                         (property extraOptions "$expand"))
                  else options in
                set_field expandKey options merged)
             (convertExpandToObject extraExpand)
             (convertExpandToObject defaultExpand))
    end.

Definition mergeExpandOptions (defaultExpand extraExpand : value) : value :=
  mergeExpandOptions_upto (S (depth extraExpand)) defaultExpand extraExpand.

(** Modelled from the spec: [mergePineOptions] of [../util] is not among
    the sources.  The spec has the caller's pine options ($filter,
    $select, $expand, $orderby) forwarded to the query, merged with the
    defaults of the operation: a default the caller does not touch is
    kept; the caller's $select and $orderby replace the default ones, a
    $select that is not an array being wrapped in one; a default $filter
    is not dropped for the caller's, both must match; and the expansions
    of both are kept, merged into one object. *)
Definition mergePineOptions (defaults extras : PineOptions) : PineOptions :=
  {| filter :=
       match filter extras with
       | None => filter defaults
       | Some e =>
           match filter defaults with
           | Some d =>
               if ToBoolean d then Some (VObj [("$and", VArr [d; e])]) else Some e
           | None => Some e
           end
       end;
     select :=
       match select extras with
       | Some v => Some (select_as_array v)
       | None => select defaults
       end;
     expand :=
       match expand extras with
       | None => expand defaults
       | Some e =>
           match expand defaults with
           | Some d => Some (mergeExpandOptions d e)
           | None => Some e
           end
       end;
     orderby := merge_override (orderby defaults) (orderby extras) |}.

(** [err.statusCode] *)
Definition statusCode (err : error) : value :=
  match err with
  | BalenaRequestError code _ => VNum code
  | _ => VUndefined
  end.

(** [err instanceof errors.BalenaDeviceNotFound] *)
Definition instanceof_BalenaDeviceNotFound (err : error) : bool :=
  match err with
  | BalenaDeviceNotFound _ => true
  | _ => false
  end.

Definition any_error (err : error) : bool := true.

(** ** The device model *)

Definition MIN_SUPERVISOR_APPS_API : string := "1.8.0-alpha.0".
Definition MIN_SUPERVISOR_MC_API : string := "7.0.0".
Definition CONTAINER_ACTION_ENDPOINT_TIMEOUT : Z := 50000.

(** The operations are modelled as called without the trailing node-style
    callback: [findCallback] then finds none and [asCallback(undefined)]
    returns the promise it is called on. *)
Section DeviceModel.
Context {B : Type} (env : Env B).

Definition pine_get : PineParams -> Promise B value :=
  call PineGet (pine_get_handler env).
Definition pine_patch : PineParams -> Promise B value :=
  call PinePatch (pine_patch_handler env).
Definition pine_delete : PineParams -> Promise B value :=
  call PineDelete (pine_delete_handler env).
Definition request_send : RequestParams -> Promise B value :=
  call RequestSend (request_send_handler env).

(** Infer dashboardUrl from apiUrl if former is undefined *)
Definition dashboardUrl : string :=
  match opts_dashboardUrl env with
  | Some u => u
  | None => replace_first "api" "dashboard" (apiUrl env)
  end.

Definition ensureSupervisorCompatibility (version : value) (minVersion : string)
  : error + unit :=
  match semver_lt env version minVersion with
  | inl e => inl e
  | inr true =>
      inl (Error ("Incompatible supervisor version: " ++ ToString version
                    ++ " - must be >= " ++ minVersion))
  | inr false => inr tt
  end.

Definition getDashboardUrl (uuid : value) : error + string :=
  if negb (String.eqb (typeof uuid) "string")
  then inl (Error "The uuid option should be a non empty string")
  else
    match member uuid "length" with
    | inl e => inl e
    | inr len =>
        if strict_eq_num len 0
        then inl (Error "The uuid option should be a non empty string")
        else inr (url_resolve env dashboardUrl
                    ("/devices/" ++ ToString uuid ++ "/summary"))
    end.

(** [normalizeDeviceOsVersion] updates the device in place; the model
    returns the updated device. *)
Definition addExtraInfo (device : value) : value :=
  normalizeDeviceOsVersion env device.

Definition or_empty (options : option PineOptions) : PineOptions :=
  match options with
  | Some o => o
  | None => no_options
  end.

Definition getAll (options : option PineOptions) : Promise B value :=
  let options := or_empty options in
  map_
    (pine_get
       {| resource := "device"; id := None; body := None;
          options :=
            Some (mergePineOptions
                    (mkPineOptions None None None (Some (VStr "device_name asc")))
                    options) |})
    addExtraInfo.

Definition get (uuidOrId : value) (options : option PineOptions) : Promise B value :=
  let options := or_empty options in
  then_
    (Promise_try
       (if is_nullish uuidOrId then throw (BalenaDeviceNotFound uuidOrId)
        else if isId uuidOrId then
          tap (pine_get {| resource := "device"; id := Some uuidOrId; body := None;
                           options := Some options |})
              (fun device =>
                 if is_nullish device then throw (BalenaDeviceNotFound uuidOrId)
                 else ret tt)
        else
          get_index
            (tap (pine_get
                    {| resource := "device"; id := None; body := None;
                       options :=
                         Some (mergePineOptions
                                 (mkPineOptions
                                    (Some (VObj [("uuid",
                                                  VObj [("$startswith", uuidOrId)])]))
                                    None None None)
                                 options) |})
                 (fun devices =>
                    len <- sync (member devices "length") ;;
                    (if strict_eq_num len 0
                     then throw (BalenaDeviceNotFound uuidOrId) else ret tt) ;;
                    len' <- sync (member devices "length") ;;
                    if gt_num len' 1
                    then throw (BalenaAmbiguousDevice uuidOrId) else ret tt))
            0))
    (fun device => ret (addExtraInfo device)).

Definition select_only (fields : value) : option PineOptions :=
  Some (mkPineOptions None (Some fields) None None).

(** Internal method for uuid/id disambiguation.
    Note that this throws an exception for missing uuids, but not
    missing ids *)
Definition getId (uuidOrId : value) : Promise B value :=
  Promise_try
    (if isId uuidOrId then ret uuidOrId
     else get_prop (get uuidOrId (select_only (VStr "id"))) "id").

Definition getName (uuidOrId : value) : Promise B value :=
  get_prop (get uuidOrId (select_only (VStr "device_name"))) "device_name".

Definition has (uuidOrId : value) : Promise B value :=
  catch_
    (return_ (get uuidOrId (select_only (VArr [VStr "id"]))) (VBool true))
    instanceof_BalenaDeviceNotFound
    (fun _ => ret (VBool false)).

Definition isOnline (uuidOrId : value) : Promise B value :=
  get_prop (get uuidOrId (select_only (VStr "is_online"))) "is_online".

Definition filter_by_uuid (uuid : value) : option PineOptions :=
  Some (mkPineOptions (Some (VObj [("uuid", uuid)])) None None None).

Definition remove (uuidOrId : value) : Promise B value :=
  then_ (get uuidOrId (select_only (VStr "uuid")))
    (fun device =>
       uuid <- sync (member device "uuid") ;;
       pine_delete {| resource := "device"; id := None; body := None;
                      options := filter_by_uuid uuid |}).

Definition rename (uuidOrId newName : value) : Promise B value :=
  then_ (get uuidOrId (select_only (VStr "uuid")))
    (fun device =>
       uuid <- sync (member device "uuid") ;;
       pine_patch {| resource := "device"; id := None;
                     body := Some (VObj [("device_name", newName)]);
                     options := filter_by_uuid uuid |}).

Definition setCustomLocation (uuidOrId location : value) : Promise B value :=
  then_ (get uuidOrId (select_only (VStr "uuid")))
    (fun device =>
       uuid <- sync (member device "uuid") ;;
       latitude <- sync (member location "latitude") ;;
       longitude <- sync (member location "longitude") ;;
       pine_patch
         {| resource := "device"; id := None;
            body := Some (VObj [("custom_latitude", VStr (ToString latitude));
                                ("custom_longitude", VStr (ToString longitude))]);
            options := filter_by_uuid uuid |}).

Definition unsetCustomLocation (uuidOrId : value) : Promise B value :=
  setCustomLocation uuidOrId
    (VObj [("latitude", VStr ""); ("longitude", VStr "")]).

(** The options with which the supervisor actions look the device up:
    [{ $select: ['id', 'supervisor_version'],
       $expand: { belongs_to__application: { $select: 'id' } } }] *)
Definition supervisor_device_options : option PineOptions :=
  Some (mkPineOptions None
          (Some (VArr [VStr "id"; VStr "supervisor_version"]))
          (Some (VObj [("belongs_to__application", VObj [("$select", VStr "id")])]))
          None).

(** [device.belongs_to__application[0].id] *)
Definition first_application_id (device : value) : error + value :=
  match member device "belongs_to__application" with
  | inl e => inl e
  | inr apps =>
      match index apps 0 with
      | inl e => inl e
      | inr app => member app "id"
      end
  end.

Definition startApplication (uuidOrId : value) : Promise B value :=
  get_prop
    (get_prop
       (then_ (get uuidOrId supervisor_device_options)
          (fun device =>
             version <- sync (member device "supervisor_version") ;;
             sync (ensureSupervisorCompatibility version MIN_SUPERVISOR_APPS_API) ;;
             appId <- sync (first_application_id device) ;;
             deviceId <- sync (member device "id") ;;
             request_send
               {| method := "POST";
                  url := "/supervisor/v1/apps/" ++ ToString appId ++ "/start";
                  baseUrl := apiUrl env;
                  requestBody :=
                    Some (VObj [("deviceId", deviceId); ("appId", appId)]);
                  timeout := Some CONTAINER_ACTION_ENDPOINT_TIMEOUT |}))
       "body")
    "containerId".

Definition stopApplication (uuidOrId : value) : Promise B value :=
  get_prop
    (get_prop
       (then_ (get uuidOrId supervisor_device_options)
          (fun device =>
             version <- sync (member device "supervisor_version") ;;
             sync (ensureSupervisorCompatibility version MIN_SUPERVISOR_APPS_API) ;;
             appId <- sync (first_application_id device) ;;
             deviceId <- sync (member device "id") ;;
             request_send
               {| method := "POST";
                  url := "/supervisor/v1/apps/" ++ ToString appId ++ "/stop";
                  baseUrl := apiUrl env;
                  requestBody :=
                    Some (VObj [("deviceId", deviceId); ("appId", appId)]);
                  timeout := Some CONTAINER_ACTION_ENDPOINT_TIMEOUT |}))
       "body")
    "containerId".

Definition startService (uuidOrId imageId : value) : Promise B value :=
  then_ (get uuidOrId supervisor_device_options)
    (fun device =>
       version <- sync (member device "supervisor_version") ;;
       sync (ensureSupervisorCompatibility version MIN_SUPERVISOR_MC_API) ;;
       appId <- sync (first_application_id device) ;;
       deviceId <- sync (member device "id") ;;
       request_send
         {| method := "POST";
            url := "/supervisor/v2/applications/" ++ ToString appId ++ "/start-service";
            baseUrl := apiUrl env;
            requestBody :=
              Some (VObj [("deviceId", deviceId); ("appId", appId);
                          ("data", VObj [("appId", appId); ("imageId", imageId)])]);
            timeout := Some CONTAINER_ACTION_ENDPOINT_TIMEOUT |}).

Definition stopService (uuidOrId imageId : value) : Promise B value :=
  then_ (get uuidOrId supervisor_device_options)
    (fun device =>
       version <- sync (member device "supervisor_version") ;;
       sync (ensureSupervisorCompatibility version MIN_SUPERVISOR_MC_API) ;;
       appId <- sync (first_application_id device) ;;
       deviceId <- sync (member device "id") ;;
       request_send
         {| method := "POST";
            url := "/supervisor/v2/applications/" ++ ToString appId ++ "/stop-service";
            baseUrl := apiUrl env;
            requestBody :=
              Some (VObj [("deviceId", deviceId); ("appId", appId);
                          ("data", VObj [("appId", appId); ("imageId", imageId)])]);
            timeout := Some CONTAINER_ACTION_ENDPOINT_TIMEOUT |}).

Definition restartService (uuidOrId imageId : value) : Promise B value :=
  then_ (get uuidOrId supervisor_device_options)
    (fun device =>
       version <- sync (member device "supervisor_version") ;;
       sync (ensureSupervisorCompatibility version MIN_SUPERVISOR_MC_API) ;;
       appId <- sync (first_application_id device) ;;
       deviceId <- sync (member device "id") ;;
       request_send
         {| method := "POST";
            url := "/supervisor/v2/applications/" ++ ToString appId ++ "/restart-service";
            baseUrl := apiUrl env;
            requestBody :=
              Some (VObj [("deviceId", deviceId); ("appId", appId);
                          ("data", VObj [("appId", appId); ("imageId", imageId)])]);
            timeout := Some CONTAINER_ACTION_ENDPOINT_TIMEOUT |}).

Definition reboot_request (deviceId force : value) : RequestParams :=
  {| method := "POST";
     url := "/supervisor/v1/reboot";
     baseUrl := apiUrl env;
     requestBody :=
       Some (VObj [("deviceId", deviceId); ("data", VObj [("force", force)])]);
     timeout := None |}.

Definition reboot (uuidOrId options : value) : Promise B value :=
  let options := if is_nullish options then VObj [] else options in
  catch_
    (get_prop
       (then_ (getId uuidOrId)
          (fun deviceId =>
             force <- sync (optional_member options "force") ;;
             catch_
               (request_send (reboot_request deviceId (VBool (ToBoolean force))))
               any_error
               (fun err =>
                  if strict_eq_num (statusCode err) (LOCKED_STATUS_CODE env)
                  then throw BalenaSupervisorLockedError
                  else throw err)))
       "body")
    (isNotFoundResponse env)
    (fun err => sync (treatAsMissingDevice env uuidOrId err)).

Definition support_access_patch (deviceId until : value) : PineParams :=
  {| resource := "device"; id := Some deviceId;
     body := Some (VObj [("is_accessible_by_support_until__date", until)]);
     options := None |}.

Definition grantSupportAccess (uuidOrId expiryTimestamp : value) : Promise B value :=
  invalid <-
    (if is_nullish expiryTimestamp then ret true
     else (t <- Date_now ;; ret (le_num expiryTimestamp t))) ;;
  if (invalid : bool)
  then throw (BalenaInvalidParameterError "expiryTimestamp" expiryTimestamp)
  else
    then_ (get uuidOrId (select_only (VStr "id")))
      (fun device =>
         deviceId <- sync (member device "id") ;;
         pine_patch (support_access_patch deviceId expiryTimestamp)).

Definition revokeSupportAccess (uuidOrId : value) : Promise B value :=
  then_ (get uuidOrId (select_only (VStr "id")))
    (fun device =>
       deviceId <- sync (member device "id") ;;
       pine_patch (support_access_patch deviceId VNull)).

(** [$filter] of a service variable query: the variables of the
    service installs of one device, or of one device and service. *)
Definition service_install_filter (scope : list (string * value)) : value :=
  VObj [("$any", VObj [("$alias", VStr "si");
                        ("$expr", VObj [("si", VObj scope)])])].

Definition serviceVar_getAllByDevice (uuidOrId : value) (options : option PineOptions)
  : Promise B value :=
  let options := or_empty options in
  then_ (get_prop (get uuidOrId (select_only (VStr "id"))) "id")
    (fun deviceId =>
       pine_get
         {| resource := "device_service_environment_variable";
            id := None; body := None;
            options :=
              Some (mergePineOptions
                      (mkPineOptions
                         (Some (VObj [("service_install",
                                       service_install_filter [("device", deviceId)])]))
                         None None None)
                      options) |}).

Definition serviceVar_get (uuidOrId serviceId key : value) : Promise B value :=
  then_
    (get_index
       (then_ (get_prop (get uuidOrId (select_only (VStr "id"))) "id")
          (fun deviceId =>
             pine_get
               {| resource := "device_service_environment_variable";
                  id := None; body := None;
                  options :=
                    Some (mkPineOptions
                            (Some (VObj [("service_install",
                                          service_install_filter
                                            [("device", deviceId);
                                             ("service", serviceId)]);
                                         ("name", key)]))
                            None None None) |}))
       0)
    (fun variable => sync (optional_member variable "value")).

End DeviceModel.

Arguments get : simpl never.
Arguments getId : simpl never.

(** What an operation adds to the log of requests. *)
Definition issues {B} (w w' : World B) (effects : list Effect) : Prop :=
  log w' = (log w ++ effects)%list.

(** A call that always returns a promise. *)
Definition never_throws {B A} (p : Promise B A) : Prop :=
  forall w e w', p w <> (Thrown e, w').

(** The queries of [get]: by numeric id, and by the beginning of the
    uuid. *)
Definition uuid_startswith (uuidOrId : value) : value :=
  VObj [("uuid", VObj [("$startswith", uuidOrId)])].

Definition device_by_id (uuidOrId : value) (options : option PineOptions) : PineParams :=
  {| resource := "device"; id := Some uuidOrId; body := None;
     options := Some (or_empty options) |}.

Definition device_by_uuid (uuidOrId : value) (options : option PineOptions) : PineParams :=
  {| resource := "device"; id := None; body := None;
     options :=
       Some (mergePineOptions
               (mkPineOptions (Some (uuid_startswith uuidOrId)) None None None)
               (or_empty options)) |}.

(** The world after one more request, answered by [h]. *)
Definition after {B Req} (record : Req -> Effect) (h : Handler B Req) (req : Req)
    (w : World B) : World B :=
  mkWorld (snd (h req (backend w))) (log w ++ [record req]) (now w).

(** The supervisor request of [op] is gated by the version check: past
    the requests of [device.get], either nothing is sent, or the device
    was found, its supervisor version is not below [minVersion], and one
    request is sent. *)
Definition sent_only_if_compatible {B} (env : Env B) (minVersion : string)
    (uuidOrId : value) (op : Promise B value) (w : World B) : Prop :=
  let found := get env uuidOrId supervisor_device_options w in
  log (snd (op w)) = log (snd found)
  \/ exists device version r,
      fst found = Resolved device
      /\ member device "supervisor_version" = inr version
      /\ semver_lt env version minVersion = inr false
      /\ log (snd (op w)) = (log (snd found) ++ [RequestSend r])%list.

(** The requests of the supervisor actions, by the last segment of
    their URL. *)
Definition application_request {B} (env : Env B) (action : string)
    (appId deviceId : value) : RequestParams :=
  {| method := "POST";
     url := "/supervisor/v1/apps/" ++ ToString appId ++ "/" ++ action;
     baseUrl := apiUrl env;
     requestBody := Some (VObj [("deviceId", deviceId); ("appId", appId)]);
     timeout := Some 50000 |}.

Definition service_request {B} (env : Env B) (action : string)
    (imageId appId deviceId : value) : RequestParams :=
  {| method := "POST";
     url := "/supervisor/v2/applications/" ++ ToString appId ++ "/" ++ action;
     baseUrl := apiUrl env;
     requestBody :=
       Some (VObj [("deviceId", deviceId); ("appId", appId);
                   ("data", VObj [("appId", appId); ("imageId", imageId)])]);
     timeout := Some 50000 |}.

(** The error of [ensureSupervisorCompatibility]. *)
Definition incompatible (version : value) (minVersion : string) : error :=
  Error ("Incompatible supervisor version: " ++ ToString version
           ++ " - must be >= " ++ minVersion).

(** What the five supervisor actions have in common: find the device,
    check its supervisor version, send the request. *)
Definition supervisor_action {B} (env : Env B) (minVersion : string)
    (request : value -> value -> RequestParams) (uuidOrId : value) : Promise B value :=
  then_ (get env uuidOrId supervisor_device_options)
    (fun device =>
       version <- sync (member device "supervisor_version") ;;
       sync (ensureSupervisorCompatibility env version minVersion) ;;
       appId <- sync (first_application_id device) ;;
       deviceId <- sync (member device "id") ;;
       request_send env (request appId deviceId)).

(** The outcome of a handler that returns a value or throws. *)
Definition settle {A} (r : error + A) : Outcome A :=
  match r with
  | inl e => Rejected e
  | inr a => Resolved a
  end.

(** ** A scripted environment

    Concrete collaborators for running the model: the remote side
    answers the requests with the entries of a script, in order, and
    with a service-unavailable error once the script is exhausted.  The
    helpers of [../util] and the libraries are stand-ins that follow
    their names: a not-found response is a request error with status
    404, treating an error as a missing device raises
    [BalenaDeviceNotFound] for the identifier, the locked status code is
    423; versions are compared as strings, which orders the versions
    used below as semver does; a path is resolved against a base URL
    that has no path of its own. *)
Module Scripted.

Definition Script : Type := list (error + value).

Definition next {Req : Type} : Handler Script Req :=
  fun _ script =>
    match script with
    | [] => (inl (BalenaRequestError 503 VUndefined), [])
    | answer :: rest => (answer, rest)
    end.

Definition env : Env Script :=
  {| pine_get_handler := next;
     pine_patch_handler := next;
     pine_delete_handler := next;
     request_send_handler := next;
     apiUrl := "https://api.balena-cloud.com";
     opts_dashboardUrl := None;
     normalizeDeviceOsVersion := fun device => device;
     isNotFoundResponse := fun err => strict_eq_num (statusCode err) 404;
     treatAsMissingDevice := fun uuidOrId _ => inl (BalenaDeviceNotFound uuidOrId);
     LOCKED_STATUS_CODE := 423;
     semver_lt :=
       fun version minVersion =>
         match version with
         | VStr v => inr (String.ltb v minVersion)
         | _ => inl (TypeError ("Invalid Version: " ++ ToString version))
         end;
     url_resolve := fun base path => base ++ path |}.

Definition world (script : Script) : World Script := mkWorld script [] 1600000000000.

Definition device_7 : value :=
  VObj [("id", VNum 7);
        ("uuid", VStr "7cf02a6");
        ("device_name", VStr "kitchen");
        ("is_online", VBool true);
        ("supervisor_version", VStr "1.7.0");
        ("belongs_to__application", VArr [VObj [("id", VNum 31)]])].

Definition device_8 : value :=
  VObj [("id", VNum 8);
        ("uuid", VStr "7cf02a7");
        ("supervisor_version", VStr "7.1.0");
        ("belongs_to__application", VArr [VObj [("id", VNum 31)]])].

End Scripted.

(** ** The rest of the device model

    The operations below complete the model: the other lookups, the
    single-field patches, the remaining supervisor actions, the lock
    override, the release tracking and the removal of a service
    variable. *)

(** [s.split(c)] for a separator of one character. *)
Fixpoint split_char (sep : ascii) (s : string) : list string :=
  match s with
  | EmptyString => [EmptyString]
  | String c rest =>
      if Ascii.eqb c sep then EmptyString :: split_char sep rest
      else match split_char sep rest with
           | [] => [String c EmptyString]
           | head :: tail => String c head :: tail
           end
  end.

(** [s.split(' ')] on a value: a TypeError unless [s] is a string. *)
Definition split_spaces (s : value) : error + value :=
  match s with
  | VStr text => inr (VArr (map VStr (split_char " "%char text)))
  | VUndefined | VNull =>
      inl (TypeError ("Cannot read property 'split' of " ++ ToString s))
  | _ => inl (TypeError "ip_address.split is not a function")
  end.

(** [a === b] where [a] is a primitive. *)
Definition strict_eq_prim (a b : value) : bool :=
  match a, b with
  | VUndefined, VUndefined => true
  | VNull, VNull => true
  | VBool x, VBool y => Bool.eqb x y
  | VNum x, VNum y => x =? y
  | VStr x, VStr y => String.eqb x y
  | _, _ => false
  end.

(** [without(array, value)] of lodash on an array of primitives: the
    elements that are not the value, in their order; an empty array when
    the first argument is not an array. *)
Definition without (array excluded : value) : value :=
  match array with
  | VArr items => VArr (List.filter (fun item => negb (strict_eq_prim item excluded)) items)
  | _ => VArr []
  end.

Section DeviceModelRest.
Context {B : Type} (env : Env B).

Definition getAllByParentDevice (parentUuidOrId : value) (options : option PineOptions)
  : Promise B value :=
  let options := or_empty options in
  then_ (get env parentUuidOrId (select_only (VStr "id")))
    (fun device =>
       id <- sync (member device "id") ;;
       getAll env
         (Some (mergePineOptions
                  (mkPineOptions (Some (VObj [("is_managed_by__device", id)]))
                     None None None)
                  options))).

Definition getByName (name : value) (options : option PineOptions) : Promise B value :=
  let options := or_empty options in
  tap (getAll env
         (Some (mergePineOptions
                  (mkPineOptions (Some (VObj [("device_name", name)])) None None None)
                  options)))
      (fun devices =>
         len <- sync (member devices "length") ;;
         if strict_eq_num len 0 then throw (BalenaDeviceNotFound name) else ret tt).

Definition getApplicationName (uuidOrId : value) : Promise B value :=
  then_ (get env uuidOrId
           (Some (mkPineOptions None (Some (VStr "id"))
                    (Some (VObj [("belongs_to__application",
                                  VObj [("$select", VStr "app_name")])]))
                    None)))
    (fun device =>
       apps <- sync (member device "belongs_to__application") ;;
       app <- sync (index apps 0) ;;
       sync (member app "app_name")).

Definition getApplicationInfo (uuidOrId : value) : Promise B value :=
  get_prop
    (then_ (get env uuidOrId supervisor_device_options)
       (fun device =>
          version <- sync (member device "supervisor_version") ;;
          sync (ensureSupervisorCompatibility env version MIN_SUPERVISOR_APPS_API) ;;
          appId <- sync (first_application_id device) ;;
          deviceId <- sync (member device "id") ;;
          request_send env
            {| method := "POST";
               url := "/supervisor/v1/apps/" ++ ToString appId;
               baseUrl := apiUrl env;
               requestBody :=
                 Some (VObj [("deviceId", deviceId); ("appId", appId);
                             ("method", VStr "GET")]);
               timeout := None |}))
    "body".

Definition getLocalIPAddresses (uuidOrId : value) : Promise B value :=
  then_ (get env uuidOrId
           (select_only (VArr [VStr "is_online"; VStr "ip_address"; VStr "vpn_address"])))
    (fun device =>
       is_online <- sync (member device "is_online") ;;
       ip_address <- sync (member device "ip_address") ;;
       vpn_address <- sync (member device "vpn_address") ;;
       if negb (ToBoolean is_online)
       then throw (Error ("The device is offline: " ++ ToString uuidOrId))
       else
         ips <- sync (split_spaces ip_address) ;;
         ret (without ips vpn_address)).

Definition identify (uuidOrId : value) : Promise B value :=
  return_
    (then_ (get env uuidOrId None)
       (fun device =>
          uuid <- sync (member device "uuid") ;;
          request_send env
            {| method := "POST"; url := "/supervisor/v1/blink"; baseUrl := apiUrl env;
               requestBody := Some (VObj [("uuid", uuid)]);
               timeout := None |}))
    VUndefined.

Definition note (uuidOrId noteText : value) : Promise B value :=
  then_ (get env uuidOrId (select_only (VStr "uuid")))
    (fun device =>
       uuid <- sync (member device "uuid") ;;
       pine_patch env
         {| resource := "device"; id := None;
            body := Some (VObj [("note", noteText)]);
            options := filter_by_uuid uuid |}).

Definition restartApplication (uuidOrId : value) : Promise B value :=
  catch_
    (get_prop
       (then_ (getId env uuidOrId)
          (fun deviceId =>
             request_send env
               {| method := "POST";
                  url := "/device/" ++ ToString deviceId ++ "/restart";
                  baseUrl := apiUrl env;
                  requestBody := None;
                  timeout := Some CONTAINER_ACTION_ENDPOINT_TIMEOUT |}))
       "body")
    (isNotFoundResponse env)
    (fun err => sync (treatAsMissingDevice env uuidOrId err)).

(** The options with which [shutdown], [purge], [update] and [ping] look
    the device up:
    [{ $select: 'id', $expand: { belongs_to__application: { $select: 'id' } } }] *)
Definition device_and_application_options : option PineOptions :=
  Some (mkPineOptions None (Some (VStr "id"))
          (Some (VObj [("belongs_to__application", VObj [("$select", VStr "id")])]))
          None).

Definition shutdown (uuidOrId options : value) : Promise B value :=
  let options := if is_nullish options then VObj [] else options in
  then_ (get env uuidOrId device_and_application_options)
    (fun device =>
       deviceId <- sync (member device "id") ;;
       appId <- sync (first_application_id device) ;;
       force <- sync (optional_member options "force") ;;
       catch_
         (request_send env
            {| method := "POST"; url := "/supervisor/v1/shutdown";
               baseUrl := apiUrl env;
               requestBody :=
                 Some (VObj [("deviceId", deviceId); ("appId", appId);
                             ("data", VObj [("force", VBool (ToBoolean force))])]);
               timeout := None |})
         any_error
         (fun err =>
            if strict_eq_num (statusCode err) (LOCKED_STATUS_CODE env)
            then throw BalenaSupervisorLockedError
            else throw err)).

Definition purge (uuidOrId : value) : Promise B value :=
  then_ (get env uuidOrId device_and_application_options)
    (fun device =>
       deviceId <- sync (member device "id") ;;
       appId <- sync (first_application_id device) ;;
       dataAppId <- sync (first_application_id device) ;;
       catch_
         (request_send env
            {| method := "POST"; url := "/supervisor/v1/purge";
               baseUrl := apiUrl env;
               requestBody :=
                 Some (VObj [("deviceId", deviceId); ("appId", appId);
                             ("data", VObj [("appId", dataAppId)])]);
               timeout := None |})
         any_error
         (fun err =>
            if strict_eq_num (statusCode err) (LOCKED_STATUS_CODE env)
            then throw BalenaSupervisorLockedError
            else throw err)).

Definition update (uuidOrId options : value) : Promise B value :=
  let options := if is_nullish options then VObj [] else options in
  then_ (get env uuidOrId device_and_application_options)
    (fun device =>
       deviceId <- sync (member device "id") ;;
       appId <- sync (first_application_id device) ;;
       force <- sync (optional_member options "force") ;;
       request_send env
         {| method := "POST"; url := "/supervisor/v1/update";
            baseUrl := apiUrl env;
            requestBody :=
              Some (VObj [("deviceId", deviceId); ("appId", appId);
                          ("data", VObj [("force", VBool (ToBoolean force))])]);
            timeout := None |}).

Definition getSupervisorState (uuidOrId : value) : Promise B value :=
  get_prop
    (then_ (get env uuidOrId (select_only (VStr "uuid")))
       (fun device =>
          uuid <- sync (member device "uuid") ;;
          request_send env
            {| method := "POST"; url := "/supervisor/v1/device";
               baseUrl := apiUrl env;
               requestBody := Some (VObj [("uuid", uuid); ("method", VStr "GET")]);
               timeout := None |}))
    "body".

Definition hasDeviceUrl (uuidOrId : value) : Promise B value :=
  get_prop (get env uuidOrId (select_only (VStr "is_web_accessible")))
    "is_web_accessible".

Definition enableDeviceUrl (uuidOrId : value) : Promise B value :=
  then_ (get env uuidOrId (select_only (VStr "uuid")))
    (fun device =>
       uuid <- sync (member device "uuid") ;;
       pine_patch env
         {| resource := "device"; id := None;
            body := Some (VObj [("is_web_accessible", VBool true)]);
            options := filter_by_uuid uuid |}).

Definition disableDeviceUrl (uuidOrId : value) : Promise B value :=
  then_ (get env uuidOrId (select_only (VStr "uuid")))
    (fun device =>
       uuid <- sync (member device "uuid") ;;
       pine_patch env
         {| resource := "device"; id := None;
            body := Some (VObj [("is_web_accessible", VBool false)]);
            options := filter_by_uuid uuid |}).

Definition setLockOverriden (uuidOrId shouldOverride : value) : Promise B value :=
  then_ (getId env uuidOrId)
    (fun deviceId =>
       let value := if ToBoolean shouldOverride then VStr "1" else VStr "0" in
       request_send env
         {| method := "POST";
            url := "/device/" ++ ToString deviceId ++ "/lock-override";
            baseUrl := apiUrl env;
            requestBody := Some (VObj [("value", value)]);
            timeout := None |}).

Definition enableLockOverride (uuidOrId : value) : Promise B value :=
  setLockOverriden uuidOrId (VBool true).

Definition disableLockOverride (uuidOrId : value) : Promise B value :=
  setLockOverriden uuidOrId (VBool false).

Definition hasLockOverride (uuidOrId : value) : Promise B value :=
  then_
    (then_ (getId env uuidOrId)
       (fun deviceId =>
          request_send env
            {| method := "GET";
               url := "/device/" ++ ToString deviceId ++ "/lock-override";
               baseUrl := apiUrl env;
               requestBody := None;
               timeout := None |}))
    (fun response =>
       body <- sync (member response "body") ;;
       ret (VBool (strict_eq_prim (VStr "1") body))).

Definition ping (uuidOrId : value) : Promise B value :=
  then_ (get env uuidOrId device_and_application_options)
    (fun device =>
       deviceId <- sync (member device "id") ;;
       appId <- sync (first_application_id device) ;;
       request_send env
         {| method := "POST"; url := "/supervisor/ping"; baseUrl := apiUrl env;
            requestBody :=
              Some (VObj [("method", VStr "GET"); ("deviceId", deviceId);
                          ("appId", appId)]);
            timeout := None |}).

Definition isTrackingApplicationRelease (uuidOrId : value) : Promise B value :=
  then_ (get env uuidOrId (select_only (VStr "should_be_running__release")))
    (fun device =>
       should_be_running__release <-
         sync (member device "should_be_running__release") ;;
       ret (VBool (negb (ToBoolean should_be_running__release)))).

Definition target_release_options : option PineOptions :=
  Some (mkPineOptions None (Some (VStr "id"))
          (Some (VObj [("should_be_running__release",
                        VObj [("$select", VStr "commit")]);
                       ("belongs_to__application",
                        VObj [("$select", VStr "id");
                              ("$expand",
                               VObj [("should_be_running__release",
                                      VObj [("$select", VArr [VStr "commit"])])])])]))
          None).

Definition getTargetReleaseHash (uuidOrId : value) : Promise B value :=
  then_ (get env uuidOrId target_release_options)
    (fun device =>
       should_be_running__release <-
         sync (member device "should_be_running__release") ;;
       belongs_to__application <- sync (member device "belongs_to__application") ;;
       len <- sync (member should_be_running__release "length") ;;
       if gt_num len 0
       then
         pinned <- sync (index should_be_running__release 0) ;;
         sync (member pinned "commit")
       else
         app <- sync (index belongs_to__application 0) ;;
         releases <- sync (member app "should_be_running__release") ;;
         targetRelease <- sync (index releases 0) ;;
         if ToBoolean targetRelease
         then sync (member targetRelease "commit")
         else ret VUndefined).

Definition trackApplicationRelease (uuidOrId : value) : Promise B value :=
  then_ (getId env uuidOrId)
    (fun deviceId =>
       pine_patch env
         {| resource := "device"; id := Some deviceId;
            body := Some (VObj [("should_be_running__release", VNull)]);
            options := None |}).

Definition serviceVar_remove (uuidOrId serviceId key : value) : Promise B value :=
  then_ (get_prop (get env uuidOrId (select_only (VStr "id"))) "id")
    (fun deviceId =>
       pine_delete env
         {| resource := "device_service_environment_variable";
            id := None; body := None;
            options :=
              Some (mkPineOptions
                      (Some (VObj [("service_install",
                                    service_install_filter
                                      [("device", deviceId);
                                       ("service", serviceId)]);
                                   ("name", key)]))
                      None None None) |}).

End DeviceModelRest.

(** ** Checks before an OS update *)

(** [_checkOsUpdateTarget] calls two helpers that are not part of the
    module: [getDeviceOsSemverWithVariant] of [../util/device-os-version]
    and [hupActionHelper.getHUPActionType], which returns the kind of
    update or throws when there is none. *)
Section OsUpdate.
Variable getDeviceOsSemverWithVariant : value -> error + value.
Variable getHUPActionType : value -> value -> value -> error + value.

Definition _checkOsUpdateTarget (device targetOsVersion : value) : error + unit :=
  match member device "uuid" with
  | inl e => inl e
  | inr uuid =>
  match member device "device_type" with
  | inl e => inl e
  | inr device_type =>
  match member device "is_online" with
  | inl e => inl e
  | inr is_online =>
  match member device "os_version" with
  | inl e => inl e
  | inr os_version =>
  match member device "os_variant" with
  | inl e => inl e
  | inr os_variant =>
      if negb (ToBoolean uuid)
      then inl (Error "The uuid of the device is not available")
      else if negb (ToBoolean is_online)
      then inl (Error ("The device is offline: " ++ ToString uuid))
      else if negb (ToBoolean os_version)
      then inl (Error ("The current os version of the device is not available: "
                         ++ ToString uuid))
      else if negb (ToBoolean device_type)
      then inl (Error ("The device type of the device is not available: "
                         ++ ToString uuid))
      else if strict_eq_prim VUndefined os_variant
      then inl (Error ("The os variant of the device is not available: "
                         ++ ToString uuid))
      else
        match getDeviceOsSemverWithVariant
                (VObj [("os_version", os_version); ("os_variant", os_variant)]) with
        | inl e => inl e
        | inr parsed =>
            let currentOsVersion := if ToBoolean parsed then parsed else os_version in
            match getHUPActionType device_type currentOsVersion targetOsVersion with
            | inl e => inl e
            | inr _ => inr tt
            end
        end
  end end end end end.

End OsUpdate.

(** More devices for the scripted environment. *)
Module Fleet.

Definition gateway : value :=
  VObj [("id", VNum 12);
        ("uuid", VStr "a44b544b8cc24d11b036c659dfeaccd8");
        ("device_name", VStr "gateway");
        ("is_online", VBool true);
        ("ip_address", VStr "192.168.1.5 10.240.0.7 fe80::1");
        ("vpn_address", VStr "10.240.0.7");
        ("belongs_to__application", VArr [VObj [("id", VNum 31)]])].

Definition orphan : value :=
  VObj [("id", VNum 13);
        ("uuid", VStr "b55c655c9dd35e22c147d76aefbbdde9");
        ("supervisor_version", VStr "9.0.0");
        ("belongs_to__application", VArr [])].

Definition application_31 : value :=
  VObj [("id", VNum 31);
        ("should_be_running__release", VArr [VObj [("commit", VStr "def456")]])].

Definition pinned : value :=
  VObj [("id", VNum 7);
        ("should_be_running__release", VArr [VObj [("commit", VStr "abc123")]]);
        ("belongs_to__application", VArr [application_31])].

End Fleet.

(** * Properties *)

(** ** Promise chains *)

Section PromiseFacts.
Context {B : Type}.

Lemma Promise_try_never_throws {A} (f : Promise B A) :
  never_throws (Promise_try f).
Proof.
  intros w e w'. unfold Promise_try.
  destruct (f w) as [[a | e0 | e0] w0]; congruence.
Qed.

Lemma then_never_throws {A C} (p : Promise B A) (k : A -> Promise B C) :
  never_throws p -> never_throws (then_ p k).
Proof.
  intros Hp w e w'. unfold then_, bind.
  destruct (p w) as [[a | e0 | e0] w0] eqn:Ep.
  - apply Promise_try_never_throws.
  - congruence.
  - exfalso. exact (Hp _ _ _ Ep).
Qed.

Lemma then_resolved {A C} (p : Promise B A) (k : A -> Promise B C) w a w1 :
  p w = (Resolved a, w1) -> then_ p k w = Promise_try (k a) w1.
Proof. intros E. unfold then_, bind. rewrite E. reflexivity. Qed.

Lemma then_rejected {A C} (p : Promise B A) (k : A -> Promise B C) w e w1 :
  p w = (Rejected e, w1) -> then_ p k w = (Rejected e, w1).
Proof. intros E. unfold then_, bind. rewrite E. reflexivity. Qed.

Lemma get_prop_rejected (p : Promise B value) key w e w1 :
  p w = (Rejected e, w1) -> get_prop p key w = (Rejected e, w1).
Proof. apply then_rejected. Qed.

Lemma get_prop_resolved (p : Promise B value) key w o w1 :
  p w = (Resolved o, w1) -> get_prop p key w = (settle (member o key), w1).
Proof.
  intros E. unfold get_prop. rewrite (then_resolved _ _ _ _ _ E).
  unfold Promise_try, sync. destruct (member o key); reflexivity.
Qed.

Lemma call_run {Req} (record : Req -> Effect) (h : Handler B Req) req w :
  call record h req w =
  (settle (fst (h req (backend w))), after record h req w).
Proof.
  unfold call, after. destruct (h req (backend w)) as [[e | v] b']; reflexivity.
Qed.

End PromiseFacts.

(** ** [device.get] *)

Section GetFacts.
Context {B : Type} (env : Env B).

Lemma get_never_throws uuidOrId options : never_throws (get env uuidOrId options).
Proof.
  unfold get. apply then_never_throws, Promise_try_never_throws.
Qed.

Lemma get_nullish uuidOrId options (w : World B) :
  is_nullish uuidOrId = true ->
  get env uuidOrId options w = (Rejected (BalenaDeviceNotFound uuidOrId), w).
Proof.
  intros H. unfold get, then_, bind, Promise_try. rewrite H. reflexivity.
Qed.

Lemma get_by_id n options (w : World B) :
  get env (VNum n) options w =
  (match fst (pine_get_handler env (device_by_id (VNum n) options) (backend w)) with
   | inl e => Rejected e
   | inr device =>
       if is_nullish device then Rejected (BalenaDeviceNotFound (VNum n))
       else Resolved (addExtraInfo env device)
   end,
   after PineGet (pine_get_handler env) (device_by_id (VNum n) options) w).
Proof.
  unfold get, tap, then_, bind, Promise_try, pine_get, device_by_id. cbn.
  rewrite call_run.
  destruct (pine_get_handler env _ (backend w)) as [[e | device] b']; cbn;
    [reflexivity|].
  destruct (is_nullish device); reflexivity.
Qed.

Lemma get_by_uuid uuidOrId options (w : World B) :
  is_nullish uuidOrId = false -> isId uuidOrId = false ->
  get env uuidOrId options w =
  (match fst (pine_get_handler env (device_by_uuid uuidOrId options) (backend w)) with
   | inl e => Rejected e
   | inr devices =>
       match member devices "length" with
       | inl e => Rejected e
       | inr len =>
           if strict_eq_num len 0 then Rejected (BalenaDeviceNotFound uuidOrId)
           else if gt_num len 1 then Rejected (BalenaAmbiguousDevice uuidOrId)
           else match index devices 0 with
                | inl e => Rejected e
                | inr device => Resolved (addExtraInfo env device)
                end
       end
   end,
   after PineGet (pine_get_handler env) (device_by_uuid uuidOrId options) w).
Proof.
  intros Hn Hi.
  unfold get, get_index, tap, then_, bind, Promise_try, pine_get, device_by_uuid,
    uuid_startswith.
  rewrite Hn, Hi, call_run.
  destruct (pine_get_handler env _ (backend w)) as [[e | devices] b']; cbn;
    [reflexivity|].
  destruct (member devices "length") as [e | len]; cbn; [reflexivity|].
  destruct (strict_eq_num len 0); cbn; [reflexivity|].
  destruct (gt_num len 1); cbn; [reflexivity|].
  destruct (index devices 0); reflexivity.
Qed.

End GetFacts.

Section Disambiguation.
Context {B : Type} (env : Env B).

(** C1: [device.get] disambiguates the identifier.  For a numeric id
    it issues one [pine.get] on the resource 'device' with that id and
    the caller's options; it rejects with the error of the query, with
    [BalenaDeviceNotFound] when no device comes back, and resolves
    with the device otherwise.  For a string it issues one [pine.get]
    on 'device' whose $filter asks for the uuids that start with the
    string (joined with the caller's $filter when there is one); it
    rejects with [BalenaDeviceNotFound] when no device matches, with
    [BalenaAmbiguousDevice] when more than one does, and resolves with
    the single matching device otherwise.  The device it resolves with
    has gone through [addExtraInfo]. *)
Theorem get_disambiguates_identifier (callerOptions : option PineOptions) (w : World B) :
  (forall n : Z,
      let q := device_by_id (VNum n) callerOptions in
      let w' := after PineGet (pine_get_handler env) q w in
      resource q = "device" /\ id q = Some (VNum n) /\
      match fst (pine_get_handler env q (backend w)) with
      | inl e => get env (VNum n) callerOptions w = (Rejected e, w')
      | inr device =>
          if is_nullish device
          then get env (VNum n) callerOptions w
               = (Rejected (BalenaDeviceNotFound (VNum n)), w')
          else get env (VNum n) callerOptions w
               = (Resolved (addExtraInfo env device), w')
      end)
  /\
  (forall s : string,
      let q := device_by_uuid (VStr s) callerOptions in
      let w' := after PineGet (pine_get_handler env) q w in
      resource q = "device" /\ id q = None /\
      (exists merged,
          options q = Some merged /\
          filter merged =
            match filter (or_empty callerOptions) with
            | None => Some (uuid_startswith (VStr s))
            | Some f => Some (VObj [("$and", VArr [uuid_startswith (VStr s); f])])
            end) /\
      match fst (pine_get_handler env q (backend w)) with
      | inl e => get env (VStr s) callerOptions w = (Rejected e, w')
      | inr (VArr []) =>
          get env (VStr s) callerOptions w
          = (Rejected (BalenaDeviceNotFound (VStr s)), w')
      | inr (VArr [device]) =>
          get env (VStr s) callerOptions w = (Resolved (addExtraInfo env device), w')
      | inr (VArr (_ :: _ :: _)) =>
          get env (VStr s) callerOptions w
          = (Rejected (BalenaAmbiguousDevice (VStr s)), w')
      | inr _ => snd (get env (VStr s) callerOptions w) = w'
      end).
Proof.
  split.
  - intros n q w'. subst q w'. rewrite get_by_id.
    repeat split.
    destruct (fst (pine_get_handler env _ (backend w))) as [e | device];
      [reflexivity|].
    destruct (is_nullish device); reflexivity.
  - intros s q w'. subst q w'.
    rewrite (get_by_uuid env (VStr s) callerOptions w eq_refl eq_refl).
    split; [reflexivity|]. split; [reflexivity|]. split.
    + eexists. split; [reflexivity|]. cbn.
      destruct (filter (or_empty callerOptions)); reflexivity.
    + destruct (fst (pine_get_handler env _ (backend w))) as [e | answer];
        [reflexivity|].
      destruct answer as [ | | b | m | t | items | fields]; try reflexivity.
      destruct items as [|device [|device' rest]]; try reflexivity.
      cbn [member String.eqb Ascii.eqb Bool.eqb List.length].
      replace (strict_eq_num _ 0) with false.
      2:{ unfold strict_eq_num. symmetry. apply Z.eqb_neq. cbn [List.length]. lia. }
      replace (gt_num _ 1) with true.
      2:{ unfold gt_num, ToNumber. symmetry. apply Z.ltb_lt. cbn [List.length]. lia. }
      reflexivity.
Qed.

End Disambiguation.

(** ** Missing identifiers and [device.has] *)

Section MissingIdentifier.
Context {B : Type} (env : Env B).

Lemma then_get_nullish {C} uuidOrId options (k : value -> Promise B C) (w : World B) :
  is_nullish uuidOrId = true ->
  then_ (get env uuidOrId options) k w
  = (Rejected (BalenaDeviceNotFound uuidOrId), w).
Proof.
  intros H. apply then_rejected. apply get_nullish. exact H.
Qed.

Lemma getId_nullish uuidOrId (w : World B) :
  is_nullish uuidOrId = true ->
  getId env uuidOrId w = (Rejected (BalenaDeviceNotFound uuidOrId), w).
Proof.
  intros H. unfold getId, Promise_try.
  replace (isId uuidOrId) with false by (destruct uuidOrId; discriminate || reflexivity).
  rewrite (get_prop_rejected _ _ _ _ _ (get_nullish env uuidOrId _ w H)).
  reflexivity.
Qed.

Lemma has_run (uuidOrId : value) (w : World B) :
  has env uuidOrId w =
    (match fst (get env uuidOrId (select_only (VArr [VStr "id"])) w) with
     | Resolved _ => Resolved (VBool true)
     | Rejected (BalenaDeviceNotFound _) => Resolved (VBool false)
     | Rejected e => Rejected e
     | Thrown e => Thrown e
     end, snd (get env uuidOrId (select_only (VArr [VStr "id"])) w)).
Proof.
  unfold has, catch_, return_, then_, bind.
  destruct (get env uuidOrId _ w) as [[device | e | e] w1]; cbn;
    [reflexivity | | reflexivity].
  destruct e; reflexivity.
Qed.

(** C8: [device.has] resolves with [true] when [device.get] resolves,
    with [false] when it rejects with [BalenaDeviceNotFound], and is
    rejected with the error of [device.get] otherwise; it issues the
    requests of [device.get] and no other.  So it resolves with [false]
    exactly when [device.get] rejects with [BalenaDeviceNotFound], and a
    [BalenaAmbiguousDevice] is passed on as it is. *)
Theorem has_reflects_get (uuidOrId : value) (w : World B) :
  let found := get env uuidOrId (select_only (VArr [VStr "id"])) w in
  has env uuidOrId w =
    (match fst found with
     | Resolved _ => Resolved (VBool true)
     | Rejected (BalenaDeviceNotFound _) => Resolved (VBool false)
     | Rejected (BalenaAmbiguousDevice v) => Rejected (BalenaAmbiguousDevice v)
     | Rejected e => Rejected e
     | Thrown e => Thrown e
     end, snd found)
  /\ (fst (has env uuidOrId w) = Resolved (VBool false)
      <-> exists v, fst found = Rejected (BalenaDeviceNotFound v))
  /\ (fst (has env uuidOrId w) = Resolved (VBool true)
      <-> exists device, fst found = Resolved device).
Proof.
  intros found. subst found.
  pose proof (has_run uuidOrId w) as E.
  pose proof (get_never_throws env uuidOrId (select_only (VArr [VStr "id"])) w) as NT.
  rewrite E.
  destruct (get env uuidOrId _ w) as [[device | e | e] w1]; cbn [fst snd].
  - split; [reflexivity|]. split; split;
      try discriminate; try (intros [v Hv]; discriminate).
    + intros _. eexists. reflexivity.
    + reflexivity.
  - split; [destruct e; reflexivity|]. split; split.
    + destruct e; try discriminate. intros _. eexists. reflexivity.
    + intros [v Hv]. inversion Hv. reflexivity.
    + destruct e; discriminate.
    + intros [v Hv]. discriminate.
  - exfalso. exact (NT _ _ eq_refl).
Qed.

(** C10, as amended: [device.get] rejects with [BalenaDeviceNotFound]
    whenever uuidOrId is null or undefined, before any query is issued.
    Consequently the operations that resolve their device through
    [device.get] and pass its rejection on (getName, isOnline, rename,
    remove, setCustomLocation, unsetCustomLocation, the application and
    service actions, revokeSupportAccess, the service variables) reject
    with [BalenaDeviceNotFound] on such an identifier and leave the
    world as it was.  [device.has] resolves its device through
    [device.get] too, and resolves with [false]. *)
Theorem nullish_identifier_is_not_found (uuidOrId : value) (w : World B) :
  is_nullish uuidOrId = true ->
  let missing := (Rejected (BalenaDeviceNotFound uuidOrId), w) in
  (forall options, get env uuidOrId options w = missing)
  /\ getName env uuidOrId w = missing
  /\ isOnline env uuidOrId w = missing
  /\ (forall newName, rename env uuidOrId newName w = missing)
  /\ remove env uuidOrId w = missing
  /\ (forall location, setCustomLocation env uuidOrId location w = missing)
  /\ unsetCustomLocation env uuidOrId w = missing
  /\ startApplication env uuidOrId w = missing
  /\ stopApplication env uuidOrId w = missing
  /\ (forall imageId, startService env uuidOrId imageId w = missing)
  /\ (forall imageId, stopService env uuidOrId imageId w = missing)
  /\ (forall imageId, restartService env uuidOrId imageId w = missing)
  /\ revokeSupportAccess env uuidOrId w = missing
  /\ (forall options, serviceVar_getAllByDevice env uuidOrId options w = missing)
  /\ (forall serviceId key, serviceVar_get env uuidOrId serviceId key w = missing)
  /\ has env uuidOrId w = (Resolved (VBool false), w).
Proof.
  intros H missing. subst missing.
  pose proof (fun o => get_nullish env uuidOrId o w H) as G.
  repeat match goal with |- _ /\ _ => split end; intros;
    try solve
      [ apply G
      | apply then_get_nullish; exact H
      | apply get_prop_rejected; try apply get_prop_rejected;
        first [ apply G | apply then_get_nullish; exact H ] ].
  - apply then_rejected, get_prop_rejected, G.
  - apply then_rejected, then_rejected, then_rejected, get_prop_rejected, G.
  - rewrite has_run, G. reflexivity.
Qed.

End MissingIdentifier.

(** On a null identifier [getName] is rejected and nothing is asked of
    the remote side. *)
Lemma nullish_identifier_is_not_found_witness :
  is_nullish VNull = true
  /\ getName Scripted.env VNull (Scripted.world [inr Scripted.device_7])
     = (Rejected (BalenaDeviceNotFound VNull), Scripted.world [inr Scripted.device_7]).
Proof.
  split; [reflexivity|].
  exact (proj1 (proj2 (nullish_identifier_is_not_found Scripted.env VNull
                         (Scripted.world [inr Scripted.device_7]) eq_refl))).
Defined.

(** C10, as stated, fails at [has]: it resolves its device through
    [device.get], and on a null identifier it is not rejected with
    [BalenaDeviceNotFound] but resolves with [false]. *)
Lemma has_null_counterexample :
  fst (has Scripted.env VNull (Scripted.world [])) = Resolved (VBool false)
  /\ fst (has Scripted.env VNull (Scripted.world []))
     <> Rejected (BalenaDeviceNotFound VNull).
Proof.
  split; [reflexivity | discriminate].
Qed.

(** A short uuid that matches two devices: [has] passes the ambiguity on. *)
Example has_ambiguous :
  fst (has Scripted.env (VStr "7cf02a")
         (Scripted.world [inr (VArr [Scripted.device_7; Scripted.device_8])]))
  = Rejected (BalenaAmbiguousDevice (VStr "7cf02a")).
Proof. reflexivity. Qed.

(** ** Request shapes *)

Section RequestShapes.
Context {B : Type} (env : Env B).

Lemma then_world {A C} (p : Promise B A) (k : A -> Promise B C) (w : World B) :
  (forall a w1, snd (k a w1) = w1) -> snd (then_ p k w) = snd (p w).
Proof.
  intros Hk. unfold then_, bind, Promise_try.
  destruct (p w) as [[a | e | e] w1]; cbn [snd]; try reflexivity.
  specialize (Hk a w1). destruct (k a w1) as [[c | e | e] w2]; exact Hk.
Qed.

Lemma get_prop_world (p : Promise B value) key (w : World B) :
  snd (get_prop p key w) = snd (p w).
Proof.
  apply then_world. intros o w1. unfold sync.
  destruct (member o key); reflexivity.
Qed.

(** C2: [device.getAll] issues one [pine.get] on the resource 'device'
    whose options are the caller's merged with the default
    [$orderby: 'device_name asc'].  Without options, and with the empty
    options, the query carries exactly the default ordering.  With
    options, the caller's $filter and $expand are those of the query, so
    is the caller's $select (as an array of fields), and the caller's
    $orderby stands in for the default one when there is one.  The
    operation resolves with the devices of the answer, each gone through
    [addExtraInfo]; an answer that cannot be iterated is rejected. *)
Theorem getAll_forwards_options (callerOptions : option PineOptions) (w : World B) :
  let ordering := Some (VStr "device_name asc") in
  let forwarded :=
    match callerOptions with
    | None => mkPineOptions None None None ordering
    | Some caller =>
        mkPineOptions
          (filter caller)
          (match select caller with
           | None => None
           | Some VUndefined => Some VUndefined
           | Some VNull => Some VNull
           | Some (VArr fields) => Some (VArr fields)
           | Some field => Some (VArr [field])
           end)
          (expand caller)
          (match orderby caller with
           | Some o => Some o
           | None => ordering
           end)
    end in
  let q := {| resource := "device"; id := None; body := None;
              options := Some forwarded |} in
  snd (getAll env callerOptions w) = after PineGet (pine_get_handler env) q w
  /\ match fst (pine_get_handler env q (backend w)) with
     | inl e => fst (getAll env callerOptions w) = Rejected e
     | inr (VArr devices) =>
         fst (getAll env callerOptions w)
         = Resolved (VArr (map (addExtraInfo env) devices))
     | inr (VStr text) =>
         fst (getAll env callerOptions w)
         = Resolved
             (VArr (map (fun c => addExtraInfo env (VStr (String c EmptyString)))
                      (list_ascii_of_string text)))
     | inr _ =>
         exists message, fst (getAll env callerOptions w) = Rejected (TypeError message)
     end.
Proof.
  intros ordering forwarded q.
  assert (Hmerged :
            mergePineOptions
              (mkPineOptions None None None (Some (VStr "device_name asc")))
              (or_empty callerOptions) = forwarded).
  { subst forwarded ordering. destruct callerOptions as [[f s x o]|]; [|reflexivity].
    unfold mergePineOptions, merge_override, select_as_array. cbn.
    destruct f, s as [field|], x, o; try destruct field; reflexivity. }
  assert (E : getAll env callerOptions w =
              (match fst (pine_get_handler env q (backend w)) with
               | inl e => Rejected e
               | inr (VArr devices) => Resolved (VArr (map (addExtraInfo env) devices))
               | inr (VStr text) =>
                   Resolved (VArr (map (addExtraInfo env) (characters text)))
               | inr _ => Rejected (TypeError "expecting an array or an iterable object")
               end, after PineGet (pine_get_handler env) q w)).
  { unfold getAll, map_, then_, bind, Promise_try, pine_get.
    rewrite Hmerged. fold q. rewrite call_run.
    destruct (fst (pine_get_handler env q (backend w))) as [e | answer]; cbn;
      [reflexivity|].
    destruct answer; reflexivity. }
  rewrite E. cbn [fst snd].
  split; [reflexivity|].
  destruct (fst (pine_get_handler env q (backend w))) as [e | answer];
    [reflexivity|].
  destruct answer; try reflexivity; try (eexists; reflexivity).
  unfold characters. rewrite map_map. reflexivity.
Qed.

(** C5: [device.getDashboardUrl] throws an [Error] when uuid is not a
    string or is the empty string, and only then; otherwise it returns
    the dashboard URL (the one configured, or the API URL with its first
    'api' replaced by 'dashboard') resolved against the path
    '/devices/<uuid>/summary'. *)
Theorem getDashboardUrl_validates_uuid (uuid : value) :
  getDashboardUrl env uuid =
    match uuid with
    | VStr EmptyString => inl (Error "The uuid option should be a non empty string")
    | VStr s => inr (url_resolve env (dashboardUrl env) ("/devices/" ++ s ++ "/summary"))
    | _ => inl (Error "The uuid option should be a non empty string")
    end
  /\ (getDashboardUrl env uuid = inl (Error "The uuid option should be a non empty string")
      <-> typeof uuid <> "string" \/ uuid = VStr "")
  /\ dashboardUrl env =
       match opts_dashboardUrl env with
       | Some configured => configured
       | None => replace_first "api" "dashboard" (apiUrl env)
       end.
Proof.
  assert (E : getDashboardUrl env uuid =
    match uuid with
    | VStr EmptyString => inl (Error "The uuid option should be a non empty string")
    | VStr s => inr (url_resolve env (dashboardUrl env) ("/devices/" ++ s ++ "/summary"))
    | _ => inl (Error "The uuid option should be a non empty string")
    end).
  { unfold getDashboardUrl. destruct uuid; try reflexivity.
    destruct s; reflexivity. }
  split; [exact E|]. split; [|reflexivity].
  rewrite E. destruct uuid; cbn;
    try (split; [intros _; left; discriminate | reflexivity]).
  destruct s as [|c s].
  - split; [intros _; right; reflexivity | reflexivity].
  - split; [discriminate|]. intros [H | H]; [congruence | discriminate].
Qed.

End RequestShapes.

(** ** Operations on a device that was found *)

Section FoundDevice.
Context {B : Type} (env : Env B).

Lemma sync_bind {A C} (r : error + A) (k : A -> Promise B C) (w : World B) :
  Promise_try (bind (sync r) k) w =
  match r with
  | inl e => (Rejected e, w)
  | inr a => Promise_try (k a) w
  end.
Proof. destruct r; reflexivity. Qed.

Lemma Promise_try_call {Req} (record : Req -> Effect) (h : Handler B Req) req
    (w : World B) :
  Promise_try (call record h req) w
  = (settle (fst (h req (backend w))), after record h req w).
Proof.
  unfold Promise_try. rewrite call_run.
  destruct (fst (h req (backend w))); reflexivity.
Qed.

Lemma setCustomLocation_run uuidOrId location device uuid latitude longitude
    (w w1 : World B) :
  get env uuidOrId (select_only (VStr "uuid")) w = (Resolved device, w1) ->
  member device "uuid" = inr uuid ->
  member location "latitude" = inr latitude ->
  member location "longitude" = inr longitude ->
  let patch :=
    {| resource := "device"; id := None;
       body := Some (VObj [("custom_latitude", VStr (ToString latitude));
                           ("custom_longitude", VStr (ToString longitude))]);
       options := Some (mkPineOptions (Some (VObj [("uuid", uuid)])) None None None) |} in
  setCustomLocation env uuidOrId location w
  = (settle (fst (pine_patch_handler env patch (backend w1))),
     after PinePatch (pine_patch_handler env) patch w1).
Proof.
  intros G Hu Hlat Hlong patch. unfold setCustomLocation.
  rewrite (then_resolved _ _ _ _ _ G).
  rewrite sync_bind, Hu, sync_bind, Hlat, sync_bind, Hlong.
  apply Promise_try_call.
Qed.

(** C9: [device.unsetCustomLocation] is [device.setCustomLocation]
    applied to the location [{ latitude: '', longitude: '' }].  Once the
    device is found, either one issues a single [pine.patch] on the
    devices with the uuid of that device, whose body has the two fields
    custom_latitude and custom_longitude and no other; for
    [unsetCustomLocation] both are the empty string. *)
Theorem unsetCustomLocation_is_setCustomLocation (uuidOrId : value) (w : World B) :
  unsetCustomLocation env uuidOrId w
  = setCustomLocation env uuidOrId
      (VObj [("latitude", VStr ""); ("longitude", VStr "")]) w
  /\ forall device uuid w1,
      get env uuidOrId (select_only (VStr "uuid")) w = (Resolved device, w1) ->
      member device "uuid" = inr uuid ->
      let selected := Some (mkPineOptions (Some (VObj [("uuid", uuid)])) None None None) in
      let cleared :=
        {| resource := "device"; id := None;
           body := Some (VObj [("custom_latitude", VStr "");
                               ("custom_longitude", VStr "")]);
           options := selected |} in
      unsetCustomLocation env uuidOrId w
      = (settle (fst (pine_patch_handler env cleared (backend w1))),
         after PinePatch (pine_patch_handler env) cleared w1)
      /\ forall location latitude longitude,
          member location "latitude" = inr latitude ->
          member location "longitude" = inr longitude ->
          let patch :=
            {| resource := "device"; id := None;
               body := Some (VObj [("custom_latitude", VStr (ToString latitude));
                                   ("custom_longitude", VStr (ToString longitude))]);
               options := selected |} in
          setCustomLocation env uuidOrId location w
          = (settle (fst (pine_patch_handler env patch (backend w1))),
             after PinePatch (pine_patch_handler env) patch w1).
Proof.
  split; [reflexivity|].
  intros device uuid w1 G Hu selected cleared. split.
  - unfold unsetCustomLocation.
    exact (setCustomLocation_run uuidOrId
             (VObj [("latitude", VStr ""); ("longitude", VStr "")])
             device uuid (VStr "") (VStr "") w w1 G Hu eq_refl eq_refl).
  - intros location latitude longitude Hlat Hlong.
    exact (setCustomLocation_run uuidOrId location device uuid latitude longitude
             w w1 G Hu Hlat Hlong).
Qed.

End FoundDevice.

(** Clearing the location of the device with uuid 7cf02a6: one query to
    find it, one patch of the two fields. *)
Lemma unsetCustomLocation_is_setCustomLocation_witness :
  let w := Scripted.world [inr (VArr [Scripted.device_7]); inr (VStr "OK")] in
  unsetCustomLocation Scripted.env (VStr "7cf02a6") w
  = (Resolved (VStr "OK"),
     mkWorld []
       [PineGet (device_by_uuid (VStr "7cf02a6") (select_only (VStr "uuid")));
        PinePatch
          {| resource := "device"; id := None;
             body := Some (VObj [("custom_latitude", VStr "");
                                 ("custom_longitude", VStr "")]);
             options :=
               Some (mkPineOptions (Some (VObj [("uuid", VStr "7cf02a6")]))
                       None None None) |}]
       1600000000000).
Proof.
  intros w.
  destruct (unsetCustomLocation_is_setCustomLocation Scripted.env (VStr "7cf02a6") w)
    as [_ H].
  destruct (H Scripted.device_7 (VStr "7cf02a6")
              (mkWorld [inr (VStr "OK")]
                 [PineGet (device_by_uuid (VStr "7cf02a6") (select_only (VStr "uuid")))]
                 1600000000000)
              eq_refl eq_refl) as [H1 _].
  exact H1.
Defined.

(** ** Supervisor compatibility *)

Section SupervisorCompatibility.
Context {B : Type} (env : Env B).

(** The callback shared by the five actions, run on the device found. *)
Lemma supervisor_callback_run (minVersion : string) (request : value -> value -> RequestParams)
    (device : value) (w1 : World B) :
  Promise_try
    (version <- sync (member device "supervisor_version") ;;
     sync (ensureSupervisorCompatibility env version minVersion) ;;
     appId <- sync (first_application_id device) ;;
     deviceId <- sync (member device "id") ;;
     request_send env (request appId deviceId)) w1
  = match member device "supervisor_version" with
    | inl e => (Rejected e, w1)
    | inr version =>
        match semver_lt env version minVersion with
        | inl e => (Rejected e, w1)
        | inr true => (Rejected (incompatible version minVersion), w1)
        | inr false =>
            match first_application_id device with
            | inl e => (Rejected e, w1)
            | inr appId =>
                match member device "id" with
                | inl e => (Rejected e, w1)
                | inr deviceId =>
                    (settle (fst (request_send_handler env (request appId deviceId)
                                    (backend w1))),
                     after RequestSend (request_send_handler env)
                       (request appId deviceId) w1)
                end
            end
        end
    end.
Proof.
  rewrite sync_bind.
  destruct (member device "supervisor_version") as [e | version]; [reflexivity|].
  rewrite sync_bind. unfold ensureSupervisorCompatibility, incompatible.
  destruct (semver_lt env version minVersion) as [e | [|]]; try reflexivity.
  rewrite sync_bind.
  destruct (first_application_id device) as [e | appId]; [reflexivity|].
  rewrite sync_bind.
  destruct (member device "id") as [e | deviceId]; [reflexivity|].
  apply Promise_try_call.
Qed.

Lemma supervisor_action_incompatible minVersion request uuidOrId device version
    (w w1 : World B) :
  get env uuidOrId supervisor_device_options w = (Resolved device, w1) ->
  member device "supervisor_version" = inr version ->
  semver_lt env version minVersion = inr true ->
  supervisor_action env minVersion request uuidOrId w
  = (Rejected (incompatible version minVersion), w1).
Proof.
  intros G Hv Hlt. unfold supervisor_action.
  rewrite (then_resolved _ _ _ _ _ G), supervisor_callback_run, Hv, Hlt.
  reflexivity.
Qed.

Lemma supervisor_action_gated minVersion request uuidOrId (w : World B) :
  sent_only_if_compatible env minVersion uuidOrId
    (supervisor_action env minVersion request uuidOrId) w.
Proof.
  unfold sent_only_if_compatible, supervisor_action.
  destruct (get env uuidOrId supervisor_device_options w) as [[device | e | e] w1] eqn:G.
  - rewrite (then_resolved _ _ _ _ _ G), supervisor_callback_run. cbn [fst snd].
    destruct (member device "supervisor_version") as [e | version] eqn:Hv;
      [left; reflexivity|].
    destruct (semver_lt env version minVersion) as [e | [|]] eqn:Hlt;
      try (left; reflexivity).
    destruct (first_application_id device) as [e | appId]; [left; reflexivity|].
    destruct (member device "id") as [e | deviceId]; [left; reflexivity|].
    right. exists device, version, (request appId deviceId).
    repeat split; try assumption.
  - rewrite (then_rejected _ _ _ _ _ G). left. reflexivity.
  - unfold then_, bind. rewrite G. left. reflexivity.
Qed.

Lemma gated_by_world minVersion uuidOrId (op op' : Promise B value) (w : World B) :
  snd (op' w) = snd (op w) ->
  sent_only_if_compatible env minVersion uuidOrId op w ->
  sent_only_if_compatible env minVersion uuidOrId op' w.
Proof.
  unfold sent_only_if_compatible. intros E. rewrite E. exact (fun H => H).
Qed.

(** C4: once the device is found, [startApplication] and
    [stopApplication] are rejected with the error 'Incompatible
    supervisor version: <version> - must be >= 1.8.0-alpha.0' when
    semver has its supervisor_version below 1.8.0-alpha.0, and
    [startService], [stopService] and [restartService] with the same
    error for 7.0.0 when it is below 7.0.0; nothing is sent then.  For
    each of the five, a supervisor request goes out only when the
    version check has passed. *)
Theorem incompatible_supervisor_is_rejected (uuidOrId imageId : value) (w : World B) :
  (forall device version w1,
      get env uuidOrId supervisor_device_options w = (Resolved device, w1) ->
      member device "supervisor_version" = inr version ->
      let rejected minVersion :=
        (Rejected (A := value)
           (Error ("Incompatible supervisor version: " ++ ToString version
                     ++ " - must be >= " ++ minVersion)), w1) in
      (semver_lt env version "1.8.0-alpha.0" = inr true ->
       startApplication env uuidOrId w = rejected "1.8.0-alpha.0"
       /\ stopApplication env uuidOrId w = rejected "1.8.0-alpha.0")
      /\ (semver_lt env version "7.0.0" = inr true ->
          startService env uuidOrId imageId w = rejected "7.0.0"
          /\ stopService env uuidOrId imageId w = rejected "7.0.0"
          /\ restartService env uuidOrId imageId w = rejected "7.0.0"))
  /\ sent_only_if_compatible env "1.8.0-alpha.0" uuidOrId
       (startApplication env uuidOrId) w
  /\ sent_only_if_compatible env "1.8.0-alpha.0" uuidOrId
       (stopApplication env uuidOrId) w
  /\ sent_only_if_compatible env "7.0.0" uuidOrId
       (startService env uuidOrId imageId) w
  /\ sent_only_if_compatible env "7.0.0" uuidOrId
       (stopService env uuidOrId imageId) w
  /\ sent_only_if_compatible env "7.0.0" uuidOrId
       (restartService env uuidOrId imageId) w.
Proof.
  split.
  - intros device version w1 G Hv rejected. split.
    + intros Hlt. split; apply get_prop_rejected, get_prop_rejected.
      * exact (supervisor_action_incompatible "1.8.0-alpha.0"
                 (application_request env "start") uuidOrId device version w w1
                 G Hv Hlt).
      * exact (supervisor_action_incompatible "1.8.0-alpha.0"
                 (application_request env "stop") uuidOrId device version w w1
                 G Hv Hlt).
    + intros Hlt. repeat split.
      * exact (supervisor_action_incompatible "7.0.0"
                 (service_request env "start-service" imageId) uuidOrId device
                 version w w1 G Hv Hlt).
      * exact (supervisor_action_incompatible "7.0.0"
                 (service_request env "stop-service" imageId) uuidOrId device
                 version w w1 G Hv Hlt).
      * exact (supervisor_action_incompatible "7.0.0"
                 (service_request env "restart-service" imageId) uuidOrId device
                 version w w1 G Hv Hlt).
  - assert (A : forall action (op : Promise B value),
               snd (op w)
               = snd (supervisor_action env "1.8.0-alpha.0"
                        (application_request env action) uuidOrId w) ->
               sent_only_if_compatible env "1.8.0-alpha.0" uuidOrId op w).
    { intros action op E. eapply gated_by_world; [exact E|].
      exact (supervisor_action_gated "1.8.0-alpha.0"
               (application_request env action) uuidOrId w). }
    repeat split.
    + apply (A "start"). unfold startApplication. rewrite !get_prop_world.
      reflexivity.
    + apply (A "stop"). unfold stopApplication. rewrite !get_prop_world.
      reflexivity.
    + exact (supervisor_action_gated "7.0.0"
               (service_request env "start-service" imageId) uuidOrId w).
    + exact (supervisor_action_gated "7.0.0"
               (service_request env "stop-service" imageId) uuidOrId w).
    + exact (supervisor_action_gated "7.0.0"
               (service_request env "restart-service" imageId) uuidOrId w).
Qed.

End SupervisorCompatibility.

(** The supervisor of the device with uuid 7cf02a6 is at 1.7.0: starting
    its application is rejected once the device is found, and nothing is
    sent to the supervisor. *)
Lemma incompatible_supervisor_is_rejected_witness :
  let w := Scripted.world [inr (VArr [Scripted.device_7]); inr (VStr "unused")] in
  startApplication Scripted.env (VStr "7cf02a6") w
  = (Rejected
       (Error "Incompatible supervisor version: 1.7.0 - must be >= 1.8.0-alpha.0"),
     mkWorld [inr (VStr "unused")]
       [PineGet (device_by_uuid (VStr "7cf02a6") supervisor_device_options)]
       1600000000000).
Proof.
  intros w.
  destruct (incompatible_supervisor_is_rejected Scripted.env (VStr "7cf02a6") VNull w)
    as [H _].
  destruct (H Scripted.device_7 (VStr "1.7.0")
              (mkWorld [inr (VStr "unused")]
                 [PineGet (device_by_uuid (VStr "7cf02a6") supervisor_device_options)]
                 1600000000000)
              eq_refl eq_refl) as [Happ _].
  exact (proj1 (Happ eq_refl)).
Defined.

(** ** Support access and service variables *)

Section DependentResources.
Context {B : Type} (env : Env B).


(** C6: once the parent device is found, [serviceVar.get] queries
    device_service_environment_variable once, for the variables of the
    service installs of that device's id and the given service id that
    have the given name; it resolves with the value of the record when
    the answer holds one, and with undefined when it holds none.
    [serviceVar.getAllByDevice] scopes its query to the service
    installs of the device's id as well. *)
Theorem serviceVar_get_scoped_to_device (uuidOrId serviceId key : value)
    (device deviceId : value) (w w1 : World B) :
  get env uuidOrId (select_only (VStr "id")) w = (Resolved device, w1) ->
  member device "id" = inr deviceId ->
  let installed_on scope :=
    VObj [("$any", VObj [("$alias", VStr "si");
                          ("$expr", VObj [("si", VObj scope)])])] in
  let q :=
    {| resource := "device_service_environment_variable"; id := None; body := None;
       options :=
         Some (mkPineOptions
                 (Some (VObj [("service_install",
                               installed_on [("device", deviceId);
                                             ("service", serviceId)]);
                              ("name", key)]))
                 None None None) |} in
  snd (serviceVar_get env uuidOrId serviceId key w)
  = after PineGet (pine_get_handler env) q w1
  /\ match fst (pine_get_handler env q (backend w1)) with
     | inl e => fst (serviceVar_get env uuidOrId serviceId key w) = Rejected e
     | inr (VArr []) =>
         fst (serviceVar_get env uuidOrId serviceId key w) = Resolved VUndefined
     | inr (VArr [VObj fields]) =>
         fst (serviceVar_get env uuidOrId serviceId key w)
         = Resolved (match lookup "value" fields with
                     | Some v => v
                     | None => VUndefined
                     end)
     | inr _ => True
     end
  /\ forall callerOptions,
      let q_all :=
        {| resource := "device_service_environment_variable"; id := None;
           body := None;
           options :=
             Some (mergePineOptions
                     (mkPineOptions
                        (Some (VObj [("service_install",
                                      installed_on [("device", deviceId)])]))
                        None None None)
                     (or_empty callerOptions)) |} in
      serviceVar_getAllByDevice env uuidOrId callerOptions w
      = (settle (fst (pine_get_handler env q_all (backend w1))),
         after PineGet (pine_get_handler env) q_all w1).
Proof.
  intros G Hid installed_on q.
  pose proof (get_prop_resolved _ "id" _ _ _ G) as Gid.
  rewrite Hid in Gid. cbn [settle] in Gid.
  split; [|split].
  - unfold serviceVar_get, get_index.
    rewrite then_world, then_world, (then_resolved _ _ _ _ _ Gid).
    + unfold pine_get. rewrite Promise_try_call. reflexivity.
    + intros o w2. unfold sync. destruct (index o 0); reflexivity.
    + intros o w2. unfold sync. destruct (optional_member o "value"); reflexivity.
  - assert (E : then_ (get_prop (get env uuidOrId (select_only (VStr "id"))) "id")
                  (fun deviceId0 => pine_get env
                     {| resource := "device_service_environment_variable";
                        id := None; body := None;
                        options :=
                          Some (mkPineOptions
                                  (Some (VObj [("service_install",
                                                service_install_filter
                                                  [("device", deviceId0);
                                                   ("service", serviceId)]);
                                               ("name", key)]))
                                  None None None) |}) w
                = (settle (fst (pine_get_handler env q (backend w1))),
                   after PineGet (pine_get_handler env) q w1)).
    { rewrite (then_resolved _ _ _ _ _ Gid). unfold pine_get.
      rewrite Promise_try_call. reflexivity. }
    unfold serviceVar_get, get_index.
    destruct (fst (pine_get_handler env q (backend w1))) as [e | answer];
      cbn [settle] in E.
    { rewrite (then_rejected _ _ _ _ _ (then_rejected _ _ _ _ _ E)). reflexivity. }
    pose proof (then_resolved _ (fun o => sync (index o 0)) _ _ _ E) as E0.
    destruct answer as [ | | b | m | t | items | fields]; try exact I.
    destruct items as [|variable rest].
    + rewrite (then_resolved _ _ _ _ _ E0). reflexivity.
    + destruct variable; try exact I. destruct rest; try exact I.
      rewrite (then_resolved _ _ _ _ _ E0). reflexivity.
  - intros callerOptions q_all. unfold serviceVar_getAllByDevice.
    rewrite (then_resolved _ _ _ _ _ Gid). unfold pine_get.
    rewrite Promise_try_call. reflexivity.
Qed.

End DependentResources.



(** The variable API_KEY of service 5 on the device with uuid 7cf02a6. *)
Lemma serviceVar_get_scoped_to_device_witness :
  let w := Scripted.world
             [inr (VArr [Scripted.device_7]);
              inr (VArr [VObj [("name", VStr "API_KEY"); ("value", VStr "secret")]])] in
  serviceVar_get Scripted.env (VStr "7cf02a6") (VNum 5) (VStr "API_KEY") w
  = (Resolved (VStr "secret"),
     mkWorld []
       [PineGet (device_by_uuid (VStr "7cf02a6") (select_only (VStr "id")));
        PineGet
          {| resource := "device_service_environment_variable"; id := None;
             body := None;
             options :=
               Some (mkPineOptions
                       (Some (VObj [("service_install",
                                     VObj [("$any",
                                            VObj [("$alias", VStr "si");
                                                  ("$expr",
                                                   VObj [("si",
                                                          VObj [("device", VNum 7);
                                                                ("service", VNum 5)])])])]);
                                    ("name", VStr "API_KEY")]))
                       None None None) |}]
       1600000000000).
Proof.
  intros w.
  destruct (serviceVar_get_scoped_to_device Scripted.env (VStr "7cf02a6") (VNum 5)
              (VStr "API_KEY") Scripted.device_7 (VNum 7) w
              (mkWorld [inr (VArr [VObj [("name", VStr "API_KEY");
                                         ("value", VStr "secret")]])]
                 [PineGet (device_by_uuid (VStr "7cf02a6") (select_only (VStr "id")))]
                 1600000000000)
              eq_refl eq_refl) as [Hworld [Hvalue _]].
  cbn in Hvalue.
  rewrite (surjective_pairing (serviceVar_get _ _ _ _ w)), Hworld, Hvalue.
  reflexivity.
Defined.

(** ** [device.reboot] *)

Section Reboot.
Context {B : Type} (env : Env B).

Lemma getId_numeric n (w : World B) :
  getId env (VNum n) w = (Resolved (VNum n), w).
Proof. reflexivity. Qed.

Lemma catch_rejected {A} (p : Promise B A) predicate handler (w w1 : World B) e :
  p w = (Rejected e, w1) ->
  catch_ p predicate handler w
  = if predicate e then Promise_try (handler e) w1 else (Rejected e, w1).
Proof. intros E. unfold catch_. rewrite E. reflexivity. Qed.

Lemma catch_resolved {A} (p : Promise B A) predicate handler (w w1 : World B) a :
  p w = (Resolved a, w1) -> catch_ p predicate handler w = (Resolved a, w1).
Proof. intros E. unfold catch_. rewrite E. reflexivity. Qed.

Lemma Promise_try_sync {A} (r : error + A) (w : World B) :
  Promise_try (sync r) w = (settle r, w).
Proof. destruct r; reflexivity. Qed.

(** [reboot] once the device is identified: one request, then the two
    handlers. *)
Lemma reboot_run (uuidOrId deviceId options : value) (w w1 : World B) :
  getId env uuidOrId w = (Resolved deviceId, w1) ->
  isNotFoundResponse env BalenaSupervisorLockedError = false ->
  forall force,
    optional_member (if is_nullish options then VObj [] else options) "force"
    = inr force ->
    let r := reboot_request env deviceId (VBool (ToBoolean force)) in
    reboot env uuidOrId options w
    = (match fst (request_send_handler env r (backend w1)) with
       | inl err =>
           if strict_eq_num (statusCode err) (LOCKED_STATUS_CODE env)
           then Rejected BalenaSupervisorLockedError
           else if isNotFoundResponse env err
                then settle (treatAsMissingDevice env uuidOrId err)
                else Rejected err
       | inr response =>
           match member response "body" with
           | inr b => Resolved b
           | inl e =>
               if isNotFoundResponse env e
               then settle (treatAsMissingDevice env uuidOrId e)
               else Rejected e
           end
       end, after RequestSend (request_send_handler env) r w1).
Proof.
  intros G Hlocked force Hforce r.
  set (inner :=
         then_ (getId env uuidOrId)
           (fun deviceId0 =>
              f <- sync (optional_member
                           (if is_nullish options then VObj [] else options) "force") ;;
              catch_
                (request_send env (reboot_request env deviceId0 (VBool (ToBoolean f))))
                any_error
                (fun err =>
                   if strict_eq_num (statusCode err) (LOCKED_STATUS_CODE env)
                   then throw BalenaSupervisorLockedError
                   else throw err))).
  assert (Hinner : inner w =
            (match fst (request_send_handler env r (backend w1)) with
             | inl err =>
                 if strict_eq_num (statusCode err) (LOCKED_STATUS_CODE env)
                 then Rejected BalenaSupervisorLockedError
                 else Rejected err
             | inr response => Resolved response
             end, after RequestSend (request_send_handler env) r w1)).
  { unfold inner. rewrite (then_resolved _ _ _ _ _ G), sync_bind, Hforce.
    fold r. unfold Promise_try, catch_, request_send. rewrite call_run.
    destruct (fst (request_send_handler env r (backend w1))) as [err | response];
      cbn; [|reflexivity].
    destruct (strict_eq_num (statusCode err) (LOCKED_STATUS_CODE env)); reflexivity. }
  change (reboot env uuidOrId options w)
    with (catch_ (get_prop inner "body") (isNotFoundResponse env)
            (fun err => sync (treatAsMissingDevice env uuidOrId err)) w).
  destruct (fst (request_send_handler env r (backend w1))) as [err | response].
  - destruct (strict_eq_num (statusCode err) (LOCKED_STATUS_CODE env));
      rewrite (catch_rejected _ _ _ _ _ _ (get_prop_rejected _ _ _ _ _ Hinner)).
    + rewrite Hlocked. reflexivity.
    + destruct (isNotFoundResponse env err); [apply Promise_try_sync | reflexivity].
  - pose proof (get_prop_resolved _ "body" _ _ _ Hinner) as Hbody.
    destruct (member response "body") as [e | b]; cbn [settle] in Hbody.
    + rewrite (catch_rejected _ _ _ _ _ _ Hbody).
      destruct (isNotFoundResponse env e); [apply Promise_try_sync | reflexivity].
    + apply (catch_resolved _ _ _ _ _ _ Hbody).
Qed.

(** C3, as amended: once the device is identified, [device.reboot]
    sends one HTTP request, a POST to '/supervisor/v1/reboot' with body
    [{ deviceId, data: { force } }], where force is false unless
    options.force is truthy.  When that request fails with the locked
    status code, [reboot] is rejected with
    [BalenaSupervisorLockedError].  Any other error of the request is
    thrown again as it is, and [reboot] is rejected with it unless it
    is a not-found response: that one goes to
    [treatAsMissingDevice(uuidOrId)].  So, for a request that fails with
    an HTTP status, and as long as [treatAsMissingDevice] does not
    itself give the locked error, [reboot] is rejected with
    [BalenaSupervisorLockedError] exactly when the status is the locked
    one.  When the request succeeds, [reboot] resolves with the body of
    the response. *)
Theorem reboot_sends_one_request (uuidOrId deviceId : value)
    (rebootOptions : option (list (string * value))) (w w1 : World B) :
  getId env uuidOrId w = (Resolved deviceId, w1) ->
  isNotFoundResponse env BalenaSupervisorLockedError = false ->
  let options :=
    match rebootOptions with
    | None => VUndefined
    | Some fields => VObj fields
    end in
  let force :=
    match rebootOptions with
    | None => false
    | Some fields =>
        match lookup "force" fields with
        | Some f => ToBoolean f
        | None => false
        end
    end in
  let r :=
    {| method := "POST"; url := "/supervisor/v1/reboot"; baseUrl := apiUrl env;
       requestBody :=
         Some (VObj [("deviceId", deviceId);
                     ("data", VObj [("force", VBool force)])]);
       timeout := None |} in
  snd (reboot env uuidOrId options w)
  = after RequestSend (request_send_handler env) r w1
  /\ match fst (request_send_handler env r (backend w1)) with
     | inl err =>
         if strict_eq_num (statusCode err) (LOCKED_STATUS_CODE env)
         then fst (reboot env uuidOrId options w)
              = Rejected BalenaSupervisorLockedError
         else if isNotFoundResponse env err
              then fst (reboot env uuidOrId options w)
                   = settle (treatAsMissingDevice env uuidOrId err)
              else fst (reboot env uuidOrId options w) = Rejected err
     | inr (VObj response) =>
         fst (reboot env uuidOrId options w)
         = Resolved (match lookup "body" response with
                     | Some b => b
                     | None => VUndefined
                     end)
     | inr _ => True
     end
  /\ forall code responseBody,
      fst (request_send_handler env r (backend w1))
      = inl (BalenaRequestError code responseBody) ->
      treatAsMissingDevice env uuidOrId (BalenaRequestError code responseBody)
      <> inl BalenaSupervisorLockedError ->
      (fst (reboot env uuidOrId options w) = Rejected BalenaSupervisorLockedError
       <-> code = LOCKED_STATUS_CODE env).
Proof.
  intros G Hlocked options force r.
  assert (Hf : exists f,
             optional_member (if is_nullish options then VObj [] else options)
               "force" = inr f /\ ToBoolean f = force).
  { subst options force. destruct rebootOptions as [fields|]; cbn.
    - destruct (lookup "force" fields); eexists; split; reflexivity.
    - eexists; split; reflexivity. }
  destruct Hf as [f [Hf1 Hf2]].
  pose proof (reboot_run uuidOrId deviceId options w w1 G Hlocked f Hf1) as Run.
  rewrite Hf2 in Run. change (reboot_request env deviceId (VBool force)) with r in Run.
  cbv zeta in Run. rewrite Run. cbn [fst snd].
  split; [reflexivity|]. split.
  - destruct (fst (request_send_handler env r (backend w1))) as [err | response].
    + destruct (strict_eq_num (statusCode err) (LOCKED_STATUS_CODE env));
        [reflexivity|].
      destruct (isNotFoundResponse env err); reflexivity.
    + destruct response; try exact I. reflexivity.
  - intros code responseBody Hanswer Htreat. rewrite Hanswer.
    cbn [statusCode strict_eq_num].
    destruct (Z.eqb_spec code (LOCKED_STATUS_CODE env)) as [Hc | Hc].
    + split; [intros _; exact Hc | reflexivity].
    + destruct (isNotFoundResponse env (BalenaRequestError code responseBody)).
      * destruct (treatAsMissingDevice env uuidOrId
                    (BalenaRequestError code responseBody)) as [e | v];
          cbn [settle]; (split; [intros H | intros H; contradiction]).
        -- inversion H. subst e. exfalso. apply Htreat. reflexivity.
        -- discriminate.
      * split; [discriminate | intros H; contradiction].
Qed.

End Reboot.

(** A forced reboot of device 7 while the supervisor holds its lock: one
    request, answered 423, and the rejection is the locked error. *)
Lemma reboot_sends_one_request_witness :
  let w := Scripted.world [inl (BalenaRequestError 423 (VStr "Locked"))] in
  reboot Scripted.env (VNum 7) (VObj [("force", VBool true)]) w
  = (Rejected BalenaSupervisorLockedError,
     mkWorld []
       [RequestSend
          {| method := "POST"; url := "/supervisor/v1/reboot";
             baseUrl := "https://api.balena-cloud.com";
             requestBody :=
               Some (VObj [("deviceId", VNum 7);
                           ("data", VObj [("force", VBool true)])]);
             timeout := None |}]
       1600000000000).
Proof.
  intros w.
  destruct (reboot_sends_one_request Scripted.env (VNum 7) (VNum 7)
              (Some [("force", VBool true)]) w w eq_refl eq_refl)
    as [Hworld [Hlocked _]].
  cbn in Hlocked.
  rewrite (surjective_pairing (reboot _ _ _ w)), Hworld, Hlocked.
  reflexivity.
Defined.

(** C3, as stated, fails at a not-found response: the request of the
    reboot of device 7 fails with status 404, which is not the locked
    status code, and [reboot] is not rejected with that error but with
    [BalenaDeviceNotFound]. *)
Lemma reboot_not_found_counterexample :
  let err := BalenaRequestError 404 (VStr "Not Found") in
  let w := Scripted.world [inl err] in
  strict_eq_num (statusCode err) (LOCKED_STATUS_CODE Scripted.env) = false
  /\ log (snd (reboot Scripted.env (VNum 7) VUndefined w))
     = [RequestSend (reboot_request Scripted.env (VNum 7) (VBool false))]
  /\ fst (reboot Scripted.env (VNum 7) VUndefined w)
     = Rejected (BalenaDeviceNotFound (VNum 7))
  /\ fst (reboot Scripted.env (VNum 7) VUndefined w) <> Rejected err.
Proof.
  cbv zeta. repeat split; try reflexivity. discriminate.
Qed.

(** ** Runs against the scripted environment *)

Example get_by_numeric_id :
  get Scripted.env (VNum 7) None (Scripted.world [inr Scripted.device_7])
  = (Resolved Scripted.device_7,
     mkWorld []
       [PineGet {| resource := "device"; id := Some (VNum 7); body := None;
                   options := Some no_options |}]
       1600000000000).
Proof. reflexivity. Qed.

Example get_by_missing_id :
  fst (get Scripted.env (VNum 9) None (Scripted.world [inr VUndefined]))
  = Rejected (BalenaDeviceNotFound (VNum 9)).
Proof. reflexivity. Qed.

Example get_by_uuid_prefix :
  get Scripted.env (VStr "7cf02a6") (select_only (VStr "id"))
    (Scripted.world [inr (VArr [Scripted.device_7])])
  = (Resolved Scripted.device_7,
     mkWorld []
       [PineGet
          {| resource := "device"; id := None; body := None;
             options :=
               Some (mkPineOptions
                       (Some (VObj [("uuid", VObj [("$startswith", VStr "7cf02a6")])]))
                       (Some (VArr [VStr "id"])) None None) |}]
       1600000000000).
Proof. reflexivity. Qed.

Example get_by_unknown_uuid :
  fst (get Scripted.env (VStr "ffff") None (Scripted.world [inr (VArr [])]))
  = Rejected (BalenaDeviceNotFound (VStr "ffff")).
Proof. reflexivity. Qed.

Example get_by_ambiguous_uuid :
  fst (get Scripted.env (VStr "7cf02a") None
         (Scripted.world [inr (VArr [Scripted.device_7; Scripted.device_8])]))
  = Rejected (BalenaAmbiguousDevice (VStr "7cf02a")).
Proof. reflexivity. Qed.

Example getAll_without_options :
  log (snd (getAll Scripted.env None (Scripted.world [inr (VArr [])])))
  = [PineGet {| resource := "device"; id := None; body := None;
                options :=
                  Some (mkPineOptions None None None
                          (Some (VStr "device_name asc"))) |}].
Proof. reflexivity. Qed.

Example getDashboardUrl_of_uuid :
  getDashboardUrl Scripted.env (VStr "a44b544b8cc24d11b036c659dfeaccd8")
  = inr "https://dashboard.balena-cloud.com/devices/a44b544b8cc24d11b036c659dfeaccd8/summary".
Proof. reflexivity. Qed.

Example getDashboardUrl_of_number :
  getDashboardUrl Scripted.env (VNum 123)
  = inl (Error "The uuid option should be a non empty string").
Proof. reflexivity. Qed.

Example startService_compatible :
  log (snd (startService Scripted.env (VNum 8) (VNum 123)
              (Scripted.world [inr Scripted.device_8; inr (VStr "OK")])))
  = [PineGet (device_by_id (VNum 8) supervisor_device_options);
     RequestSend
       {| method := "POST";
          url := "/supervisor/v2/applications/31/start-service";
          baseUrl := "https://api.balena-cloud.com";
          requestBody :=
            Some (VObj [("deviceId", VNum 8); ("appId", VNum 31);
                        ("data", VObj [("appId", VNum 31); ("imageId", VNum 123)])]);
          timeout := Some 50000 |}].
Proof. reflexivity. Qed.

Example grantSupportAccess_in_the_past :
  grantSupportAccess Scripted.env (VNum 7) (VNum 1600000000000)
    (Scripted.world [inr Scripted.device_7])
  = (Thrown (BalenaInvalidParameterError "expiryTimestamp" (VNum 1600000000000)),
     Scripted.world [inr Scripted.device_7]).
Proof. reflexivity. Qed.

(** Timestamps given as strings or arrays are converted before they
    are compared: a numeric string in the past, the empty string and
    the empty array (both 0) are refused like a number in the past. *)
Example grantSupportAccess_converts_expiry :
  let w := Scripted.world [inr Scripted.device_7; inr (VStr "OK")] in
  map (fun expiryTimestamp =>
         fst (grantSupportAccess Scripted.env (VNum 7) expiryTimestamp w))
    [VStr "1000"; VStr ""; VArr []; VStr " 1.6e12 "; VStr "0x10";
     VStr "1600000000000.5"; VArr [VNum 1600000000001]]
  = [Thrown (BalenaInvalidParameterError "expiryTimestamp" (VStr "1000"));
     Thrown (BalenaInvalidParameterError "expiryTimestamp" (VStr ""));
     Thrown (BalenaInvalidParameterError "expiryTimestamp" (VArr []));
     Thrown (BalenaInvalidParameterError "expiryTimestamp" (VStr " 1.6e12 "));
     Thrown (BalenaInvalidParameterError "expiryTimestamp" (VStr "0x10"));
     Resolved (VStr "OK");
     Resolved (VStr "OK")].
Proof. vm_compute. reflexivity. Qed.

(** * Further properties of the device model *)

(** ** Lookups *)

Section Lookups.
Context {B : Type} (env : Env B).

Lemma getAll_run (callerOptions : option PineOptions) (w : World B) :
  let q := {| resource := "device"; id := None; body := None;
              options :=
                Some (mergePineOptions
                        (mkPineOptions None None None (Some (VStr "device_name asc")))
                        (or_empty callerOptions)) |} in
  getAll env callerOptions w
  = (match fst (pine_get_handler env q (backend w)) with
     | inl e => Rejected e
     | inr (VArr devices) => Resolved (VArr (map (addExtraInfo env) devices))
     | inr (VStr text) => Resolved (VArr (map (addExtraInfo env) (characters text)))
     | inr _ => Rejected (TypeError "expecting an array or an iterable object")
     end, after PineGet (pine_get_handler env) q w).
Proof.
  intros q. unfold getAll, map_, then_, bind, Promise_try, pine_get.
  fold q. rewrite call_run.
  destruct (fst (pine_get_handler env q (backend w))) as [e | answer]; cbn;
    [reflexivity|].
  destruct answer; reflexivity.
Qed.

Lemma length_is_positive {A} (x : A) (rest : list A) :
  strict_eq_num (VNum (Z.of_nat (List.length (x :: rest)))) 0 = false.
Proof. unfold strict_eq_num. apply Z.eqb_neq. cbn [List.length]. lia. Qed.

(** X1: [device.getByName] issues one [pine.get] on 'device' whose
    $filter asks for the devices of that name (joined with the caller's
    $filter when there is one), with the caller's other options and the
    default ordering by device name.  It rejects with
    [BalenaDeviceNotFound] for the name when the answer is empty; when
    one or several devices have the name, it resolves with all of them,
    and several are not an ambiguity.  A string answer is iterated
    character by character, like an array; any other answer is
    rejected. *)
Theorem getByName_needs_one_match (name : value) (callerOptions : option PineOptions)
    (w : World B) :
  let by_name := VObj [("device_name", name)] in
  let ordering := Some (VStr "device_name asc") in
  let forwarded :=
    match callerOptions with
    | None => mkPineOptions (Some by_name) None None ordering
    | Some caller =>
        mkPineOptions
          (match filter caller with
           | None => Some by_name
           | Some f => Some (VObj [("$and", VArr [by_name; f])])
           end)
          (match select caller with
           | None => None
           | Some VUndefined => Some VUndefined
           | Some VNull => Some VNull
           | Some (VArr fields) => Some (VArr fields)
           | Some field => Some (VArr [field])
           end)
          (expand caller)
          (match orderby caller with
           | Some o => Some o
           | None => ordering
           end)
    end in
  let q := {| resource := "device"; id := None; body := None;
              options := Some forwarded |} in
  snd (getByName env name callerOptions w) = after PineGet (pine_get_handler env) q w
  /\ match fst (pine_get_handler env q (backend w)) with
     | inl e => fst (getByName env name callerOptions w) = Rejected e
     | inr (VArr []) =>
         fst (getByName env name callerOptions w) = Rejected (BalenaDeviceNotFound name)
     | inr (VArr (device :: others)) =>
         fst (getByName env name callerOptions w)
         = Resolved (VArr (map (addExtraInfo env) (device :: others)))
     | inr (VStr EmptyString) =>
         fst (getByName env name callerOptions w) = Rejected (BalenaDeviceNotFound name)
     | inr (VStr (String c rest)) =>
         fst (getByName env name callerOptions w)
         = Resolved
             (VArr (map (fun c => addExtraInfo env (VStr (String c EmptyString)))
                      (c :: list_ascii_of_string rest)))
     | inr _ =>
         exists message,
           fst (getByName env name callerOptions w) = Rejected (TypeError message)
     end.
Proof.
  intros by_name ordering forwarded q.
  assert (Hmerged :
            mergePineOptions
              (mkPineOptions None None None (Some (VStr "device_name asc")))
              (mergePineOptions (mkPineOptions (Some by_name) None None None)
                 (or_empty callerOptions)) = forwarded).
  { subst forwarded ordering. destruct callerOptions as [[f s x o]|]; [|reflexivity].
    unfold mergePineOptions, merge_override, select_as_array. cbn.
    destruct f, s as [field|], x, o; try destruct field; reflexivity. }
  pose proof (getAll_run
                (Some (mergePineOptions (mkPineOptions (Some by_name) None None None)
                         (or_empty callerOptions))) w) as Run.
  cbv zeta in Run. change (or_empty (Some ?o)) with o in Run.
  rewrite Hmerged in Run. fold q in Run.
  assert (E : getByName env name callerOptions w
              = (match fst (pine_get_handler env q (backend w)) with
                 | inl e => Rejected e
                 | inr (VArr []) => Rejected (BalenaDeviceNotFound name)
                 | inr (VArr (device :: others)) =>
                     Resolved (VArr (map (addExtraInfo env) (device :: others)))
                 | inr (VStr EmptyString) => Rejected (BalenaDeviceNotFound name)
                 | inr (VStr (String c rest)) =>
                     Resolved (VArr (map (addExtraInfo env) (characters (String c rest))))
                 | inr _ => Rejected (TypeError "expecting an array or an iterable object")
                 end, after PineGet (pine_get_handler env) q w)).
  { unfold getByName, tap, then_, bind. fold by_name. rewrite Run.
    destruct (fst (pine_get_handler env q (backend w))) as [e | answer];
      [reflexivity|].
    destruct answer as [ | | b | m | t | items | fields]; try reflexivity.
    - destruct t as [|c rest]; [reflexivity|].
      unfold Promise_try, sync, ret, throw.
      cbn [member String.eqb Ascii.eqb Bool.eqb map characters list_ascii_of_string].
      rewrite length_is_positive. reflexivity.
    - destruct items as [|device others]; [reflexivity|].
      unfold Promise_try, sync, ret, throw.
      cbn [member String.eqb Ascii.eqb Bool.eqb map].
      rewrite length_is_positive. reflexivity. }
  rewrite E. cbn [fst snd].
  split; [reflexivity|].
  destruct (fst (pine_get_handler env q (backend w))) as [e | answer];
    [reflexivity|].
  destruct answer as [ | | b | m | t | items | fields];
    try (eexists; reflexivity).
  - destruct t as [|c rest]; [reflexivity|].
    unfold characters. rewrite map_map. reflexivity.
  - destruct items; reflexivity.
Qed.

(** X2: [device.getAllByParentDevice] looks the parent up first.  When
    that lookup is rejected, so is the operation, with the same error,
    and no query for devices is issued.  When the parent is found, one
    [pine.get] on 'device' follows, filtered on
    is_managed_by__device = the parent's id, with the default ordering by
    device name. *)
Theorem getAllByParentDevice_looks_parent_up (parentUuidOrId : value)
    (callerOptions : option PineOptions) (w : World B) :
  (forall e w1,
      get env parentUuidOrId (select_only (VStr "id")) w = (Rejected e, w1) ->
      getAllByParentDevice env parentUuidOrId callerOptions w = (Rejected e, w1))
  /\ (forall parent parentId w1,
         get env parentUuidOrId (select_only (VStr "id")) w = (Resolved parent, w1) ->
         member parent "id" = inr parentId ->
         let managed := VObj [("is_managed_by__device", parentId)] in
         let forwarded :=
           mergePineOptions
             (mkPineOptions None None None (Some (VStr "device_name asc")))
             (mergePineOptions (mkPineOptions (Some managed) None None None)
                (or_empty callerOptions)) in
         let q := {| resource := "device"; id := None; body := None;
                     options := Some forwarded |} in
         snd (getAllByParentDevice env parentUuidOrId callerOptions w)
         = after PineGet (pine_get_handler env) q w1
         /\ (filter (or_empty callerOptions) = None ->
             forwarded = mkPineOptions (Some managed)
                           (match select (or_empty callerOptions) with
                            | None => None
                            | Some VUndefined => Some VUndefined
                            | Some VNull => Some VNull
                            | Some (VArr fields) => Some (VArr fields)
                            | Some field => Some (VArr [field])
                            end)
                           (expand (or_empty callerOptions))
                           (match orderby (or_empty callerOptions) with
                            | Some o => Some o
                            | None => Some (VStr "device_name asc")
                            end))
         /\ forall devices,
             fst (pine_get_handler env q (backend w1)) = inr (VArr devices) ->
             fst (getAllByParentDevice env parentUuidOrId callerOptions w)
             = Resolved (VArr (map (addExtraInfo env) devices))).
Proof.
  split.
  - intros e w1 G. unfold getAllByParentDevice. apply then_rejected. exact G.
  - intros parent parentId w1 G Hid managed forwarded q.
    assert (E : getAllByParentDevice env parentUuidOrId callerOptions w
                = Promise_try
                    (getAll env
                       (Some (mergePineOptions
                                (mkPineOptions (Some managed) None None None)
                                (or_empty callerOptions)))) w1).
    { unfold getAllByParentDevice.
      rewrite (then_resolved _ _ _ _ _ G), sync_bind, Hid. reflexivity. }
    pose proof (getAll_run
                  (Some (mergePineOptions (mkPineOptions (Some managed) None None None)
                           (or_empty callerOptions))) w1) as Run.
    cbv zeta in Run. change (or_empty (Some ?o)) with o in Run.
    fold forwarded in Run. fold q in Run.
    rewrite E. unfold Promise_try. rewrite Run.
    split; [|split].
    + destruct (fst (pine_get_handler env q (backend w1))) as [e | answer];
        [reflexivity|].
      destruct answer; reflexivity.
    + intros Hnone. subst forwarded.
      unfold mergePineOptions, merge_override, select_as_array.
      rewrite Hnone. cbn.
      destruct (or_empty callerOptions) as [f s x [o|]]; cbn;
        destruct s as [field|]; destruct x; try destruct field; reflexivity.
    + intros devices Hanswer. rewrite Hanswer. reflexivity.
Qed.

End Lookups.

(** The children of device 7, asked for by its id. *)
Lemma getAllByParentDevice_looks_parent_up_witness :
  let w := Scripted.world [inr Scripted.device_7; inr (VArr [Scripted.device_8])] in
  getAllByParentDevice Scripted.env (VNum 7) None w
  = (Resolved (VArr [Scripted.device_8]),
     mkWorld []
       [PineGet (device_by_id (VNum 7) (select_only (VStr "id")));
        PineGet
          {| resource := "device"; id := None; body := None;
             options :=
               Some (mkPineOptions
                       (Some (VObj [("is_managed_by__device", VNum 7)]))
                       None None (Some (VStr "device_name asc"))) |}]
       1600000000000).
Proof.
  intros w.
  destruct (getAllByParentDevice_looks_parent_up Scripted.env (VNum 7) None w)
    as [_ H].
  destruct (H Scripted.device_7 (VNum 7)
              (mkWorld [inr (VArr [Scripted.device_8])]
                 [PineGet (device_by_id (VNum 7) (select_only (VStr "id")))]
                 1600000000000)
              eq_refl eq_refl) as [Hworld [_ Hdevices]].
  rewrite (surjective_pairing (getAllByParentDevice _ _ _ w)), Hworld,
    (Hdevices [Scripted.device_8] eq_refl).
  reflexivity.
Defined.

(** ** Local IP addresses *)

Section LocalAddresses.
Context {B : Type} (env : Env B).

Lemma split_char_nonempty sep s : split_char sep s <> [].
Proof.
  destruct s as [|c rest]; cbn; [discriminate|].
  destruct (Ascii.eqb c sep); [discriminate|].
  destruct (split_char sep rest); discriminate.
Qed.

(** Splitting loses nothing: joining the pieces with the separator gives
    the string back. *)
Lemma split_char_join sep s :
  String.concat (String sep EmptyString) (split_char sep s) = s.
Proof.
  induction s as [|c rest IH]; [reflexivity|].
  cbn [split_char]. destruct (Ascii.eqb_spec c sep) as [-> | Hc].
  - pose proof (split_char_nonempty sep rest) as Hne.
    destruct (split_char sep rest) as [|piece pieces]; [contradiction|].
    change (String.concat (String sep EmptyString) (EmptyString :: piece :: pieces))
      with (String sep (String.concat (String sep EmptyString) (piece :: pieces))).
    rewrite IH. reflexivity.
  - pose proof (split_char_nonempty sep rest) as Hne.
    destruct (split_char sep rest) as [|piece pieces]; [contradiction|].
    destruct pieces as [|piece' pieces'].
    + cbn in IH |- *. rewrite IH. reflexivity.
    + cbn in IH |- *. rewrite <- IH. reflexivity.
Qed.

Lemma strict_eq_prim_string s v : strict_eq_prim (VStr s) v = true <-> v = VStr s.
Proof.
  destruct v; cbn; try (split; [discriminate | discriminate]).
  rewrite String.eqb_eq. split; [intros ->; reflexivity | intros H; inversion H; reflexivity].
Qed.

(** X3: [device.getLocalIPAddresses] on a device that was found.  An
    offline device (is_online falsy) is rejected with the error 'The
    device is offline: <uuidOrId>'.  For an online device whose
    ip_address is a string, the operation resolves with the
    space-separated addresses of that string that are not the VPN
    address: the VPN address is never in the result, every other
    address is, and nothing else.  An online device with no ip_address
    (null) is rejected with a TypeError.  Nothing is asked of the remote
    side past the lookup. *)
Theorem getLocalIPAddresses_excludes_vpn (uuidOrId device is_online ip_address
    vpn_address : value) (w w1 : World B) :
  get env uuidOrId
    (select_only (VArr [VStr "is_online"; VStr "ip_address"; VStr "vpn_address"])) w
  = (Resolved device, w1) ->
  member device "is_online" = inr is_online ->
  member device "ip_address" = inr ip_address ->
  member device "vpn_address" = inr vpn_address ->
  snd (getLocalIPAddresses env uuidOrId w) = w1
  /\ (ToBoolean is_online = false ->
      fst (getLocalIPAddresses env uuidOrId w)
      = Rejected (Error ("The device is offline: " ++ ToString uuidOrId)))
  /\ (ToBoolean is_online = true -> ip_address = VNull ->
      exists message,
        fst (getLocalIPAddresses env uuidOrId w) = Rejected (TypeError message))
  /\ (forall text,
         ToBoolean is_online = true -> ip_address = VStr text ->
         exists addresses,
           fst (getLocalIPAddresses env uuidOrId w) = Resolved (VArr addresses)
           /\ ~ In vpn_address addresses
           /\ forall a,
               In a addresses
               <-> exists ip, a = VStr ip /\ In ip (split_char " "%char text)
                              /\ a <> vpn_address).
Proof.
  intros G Honline Hip Hvpn.
  assert (E : getLocalIPAddresses env uuidOrId w
              = (if negb (ToBoolean is_online)
                 then Rejected (Error ("The device is offline: " ++ ToString uuidOrId))
                 else match split_spaces ip_address with
                      | inl e => Rejected e
                      | inr ips => Resolved (without ips vpn_address)
                      end, w1)).
  { unfold getLocalIPAddresses.
    rewrite (then_resolved _ _ _ _ _ G), sync_bind, Honline, sync_bind, Hip,
      sync_bind, Hvpn.
    destruct (negb (ToBoolean is_online)); [reflexivity|].
    rewrite sync_bind. destruct (split_spaces ip_address); reflexivity. }
  rewrite E. cbn [fst snd].
  split; [reflexivity|]. split; [|split].
  - intros Hoff. rewrite Hoff. reflexivity.
  - intros Hon Hnull. rewrite Hon, Hnull. eexists. reflexivity.
  - intros text Hon Htext. rewrite Hon, Htext. cbn [negb split_spaces without].
    eexists. split; [reflexivity|]. split.
    + intros Hin. apply filter_In in Hin. destruct Hin as [Hin Hneq].
      apply in_map_iff in Hin. destruct Hin as [ip [Hip' _]]. subst vpn_address.
      rewrite (proj2 (strict_eq_prim_string ip (VStr ip)) eq_refl) in Hneq.
      discriminate.
    + intros a. rewrite filter_In, in_map_iff. split.
      * intros [[ip [Ha Hin]] Hneq]. subst a. exists ip.
        split; [reflexivity|]. split; [exact Hin|].
        intros Heq. rewrite (proj2 (strict_eq_prim_string ip vpn_address)) in Hneq;
          [discriminate | symmetry; exact Heq].
      * intros [ip [Ha [Hin Hneq]]]. subst a. split.
        -- exists ip. split; [reflexivity | exact Hin].
        -- destruct (strict_eq_prim (VStr ip) vpn_address) eqn:Heq; [|reflexivity].
           apply strict_eq_prim_string in Heq. exfalso. apply Hneq.
           symmetry. exact Heq.
Qed.

End LocalAddresses.

(** The gateway has three addresses, one of them its VPN address. *)
Lemma getLocalIPAddresses_excludes_vpn_witness :
  let w := Scripted.world [inr (VArr [Fleet.gateway])] in
  exists addresses,
    fst (getLocalIPAddresses Scripted.env (VStr "a44b544") w)
    = Resolved (VArr addresses)
    /\ ~ In (VStr "10.240.0.7") addresses
    /\ In (VStr "fe80::1") addresses.
Proof.
  intros w.
  destruct (getLocalIPAddresses_excludes_vpn Scripted.env (VStr "a44b544")
              Fleet.gateway (VBool true) (VStr "192.168.1.5 10.240.0.7 fe80::1")
              (VStr "10.240.0.7") w
              (mkWorld []
                 [PineGet (device_by_uuid (VStr "a44b544")
                             (select_only (VArr [VStr "is_online"; VStr "ip_address";
                                                 VStr "vpn_address"])))]
                 1600000000000)
              eq_refl eq_refl eq_refl eq_refl) as [_ [_ [_ H]]].
  destruct (H "192.168.1.5 10.240.0.7 fe80::1" eq_refl eq_refl)
    as [addresses [Hresolved [Hvpn Hothers]]].
  exists addresses. split; [exact Hresolved|]. split; [exact Hvpn|].
  apply Hothers. exists "fe80::1". split; [reflexivity|].
  split; [cbn; tauto | discriminate].
Defined.

Example getLocalIPAddresses_of_gateway :
  fst (getLocalIPAddresses Scripted.env (VStr "a44b544")
         (Scripted.world [inr (VArr [Fleet.gateway])]))
  = Resolved (VArr [VStr "192.168.1.5"; VStr "fe80::1"]).
Proof. reflexivity. Qed.

(** ** Shutdown, purge, update and ping *)

Section SupervisorRequests.
Context {B : Type} (env : Env B).

Lemma lock_handler_run (r : RequestParams) (w1 : World B) :
  Promise_try
    (catch_ (request_send env r) any_error
       (fun err =>
          if strict_eq_num (statusCode err) (LOCKED_STATUS_CODE env)
          then throw BalenaSupervisorLockedError
          else throw err)) w1
  = (match fst (request_send_handler env r (backend w1)) with
     | inl err =>
         if strict_eq_num (statusCode err) (LOCKED_STATUS_CODE env)
         then Rejected BalenaSupervisorLockedError
         else Rejected err
     | inr response => Resolved response
     end, after RequestSend (request_send_handler env) r w1).
Proof.
  unfold Promise_try, catch_, request_send. rewrite call_run.
  destruct (fst (request_send_handler env r (backend w1))) as [err | response];
    cbn; [|reflexivity].
  destruct (strict_eq_num (statusCode err) (LOCKED_STATUS_CODE env)); reflexivity.
Qed.

Lemma first_application_id_of device app others appId :
  member device "belongs_to__application" = inr (VArr (app :: others)) ->
  member app "id" = inr appId ->
  first_application_id device = inr appId.
Proof.
  intros Happs Hid. unfold first_application_id. rewrite Happs. cbn. exact Hid.
Qed.

Lemma first_application_id_none device :
  member device "belongs_to__application" = inr (VArr []) ->
  first_application_id device
  = inl (TypeError "Cannot read property 'id' of undefined").
Proof.
  intros Happs. unfold first_application_id. rewrite Happs. reflexivity.
Qed.

Lemma force_of_options (supplied : option (list (string * value))) :
  let options :=
    match supplied with
    | None => VUndefined
    | Some fields => VObj fields
    end in
  exists f,
    optional_member (if is_nullish options then VObj [] else options) "force" = inr f
    /\ ToBoolean f
       = match supplied with
         | None => false
         | Some fields =>
             match lookup "force" fields with
             | Some v => ToBoolean v
             | None => false
             end
         end.
Proof.
  destruct supplied as [fields|]; cbn.
  - destruct (lookup "force" fields); eexists; split; reflexivity.
  - eexists; split; reflexivity.
Qed.

(** X4: [shutdown], [purge] and [update] on a device that was found and
    belongs to an application send one POST to the supervisor, to
    '/supervisor/v1/shutdown', '/supervisor/v1/purge' and
    '/supervisor/v1/update', with the ids of the device and of its
    application.  [shutdown] and [purge] are rejected with
    [BalenaSupervisorLockedError] when the request fails with the locked
    status code, and with the error of the request, unchanged, in every
    other case, a not-found response included.  [update] does not
    translate the locked status: it is rejected with the error of the
    request whatever it is.  All three resolve with the whole response. *)
Theorem shutdown_purge_translate_lock (uuidOrId device deviceId app appId : value)
    (others : list value) (supplied : option (list (string * value)))
    (w w1 : World B) :
  get env uuidOrId device_and_application_options w = (Resolved device, w1) ->
  member device "id" = inr deviceId ->
  member device "belongs_to__application" = inr (VArr (app :: others)) ->
  member app "id" = inr appId ->
  let options :=
    match supplied with
    | None => VUndefined
    | Some fields => VObj fields
    end in
  let force :=
    match supplied with
    | None => false
    | Some fields =>
        match lookup "force" fields with
        | Some v => ToBoolean v
        | None => false
        end
    end in
  let post path data :=
    {| method := "POST"; url := path; baseUrl := apiUrl env;
       requestBody :=
         Some (VObj [("deviceId", deviceId); ("appId", appId); ("data", data)]);
       timeout := None |} in
  let translated (answer : error + value) :=
    match answer with
    | inl err =>
        if strict_eq_num (statusCode err) (LOCKED_STATUS_CODE env)
        then Rejected BalenaSupervisorLockedError
        else Rejected err
    | inr response => Resolved response
    end in
  let answer_to r := fst (request_send_handler env r (backend w1)) in
  let sent r := after RequestSend (request_send_handler env) r w1 in
  let forced := VObj [("force", VBool force)] in
  shutdown env uuidOrId options w
  = (translated (answer_to (post "/supervisor/v1/shutdown" forced)),
     sent (post "/supervisor/v1/shutdown" forced))
  /\ purge env uuidOrId w
     = (translated (answer_to (post "/supervisor/v1/purge" (VObj [("appId", appId)]))),
        sent (post "/supervisor/v1/purge" (VObj [("appId", appId)])))
  /\ update env uuidOrId options w
     = (settle (answer_to (post "/supervisor/v1/update" forced)),
        sent (post "/supervisor/v1/update" forced)).
Proof.
  intros G Hid Happs Happ options force post translated answer_to sent forced.
  pose proof (first_application_id_of device app others appId Happs Happ) as Hfirst.
  destruct (force_of_options supplied) as [f [Hf1 Hf2]].
  fold options in Hf1. fold force in Hf2.
  repeat split.
  - unfold shutdown.
    rewrite (then_resolved _ _ _ _ _ G), sync_bind, Hid, sync_bind, Hfirst,
      sync_bind, Hf1, Hf2.
    apply lock_handler_run.
  - unfold purge.
    rewrite (then_resolved _ _ _ _ _ G), sync_bind, Hid, sync_bind, Hfirst,
      sync_bind.
    apply lock_handler_run.
  - unfold update.
    rewrite (then_resolved _ _ _ _ _ G), sync_bind, Hid, sync_bind, Hfirst,
      sync_bind, Hf1, Hf2.
    apply Promise_try_call.
Qed.

(** X5: a device that belongs to no application (an empty
    belongs_to__application).  [shutdown], [purge], [update] and [ping]
    read the id of the first application before they build their
    request: on such a device each is rejected with a TypeError, and
    nothing is sent to the supervisor. *)
Theorem supervisor_requests_need_an_application (uuidOrId device deviceId options : value)
    (w w1 : World B) :
  get env uuidOrId device_and_application_options w = (Resolved device, w1) ->
  member device "id" = inr deviceId ->
  member device "belongs_to__application" = inr (VArr []) ->
  let failed :=
    (Rejected (A := value) (TypeError "Cannot read property 'id' of undefined"), w1) in
  shutdown env uuidOrId options w = failed
  /\ purge env uuidOrId w = failed
  /\ update env uuidOrId options w = failed
  /\ ping env uuidOrId w = failed.
Proof.
  intros G Hid Happs failed.
  pose proof (first_application_id_none device Happs) as Hfirst.
  repeat split.
  - unfold shutdown.
    rewrite (then_resolved _ _ _ _ _ G), sync_bind, Hid, sync_bind, Hfirst.
    reflexivity.
  - unfold purge.
    rewrite (then_resolved _ _ _ _ _ G), sync_bind, Hid, sync_bind, Hfirst.
    reflexivity.
  - unfold update.
    rewrite (then_resolved _ _ _ _ _ G), sync_bind, Hid, sync_bind, Hfirst.
    reflexivity.
  - unfold ping.
    rewrite (then_resolved _ _ _ _ _ G), sync_bind, Hid, sync_bind, Hfirst.
    reflexivity.
Qed.

End SupervisorRequests.

(** Shutting device 7 down while its supervisor is locked; the request
    of [update] fails the same way and its error is passed on. *)
Lemma shutdown_purge_translate_lock_witness :
  let locked := BalenaRequestError 423 (VStr "Locked") in
  let w := Scripted.world [inr Scripted.device_7; inl locked] in
  fst (shutdown Scripted.env (VNum 7) VUndefined w)
  = Rejected BalenaSupervisorLockedError
  /\ fst (update Scripted.env (VNum 7) VUndefined w) = Rejected locked.
Proof.
  intros locked w.
  destruct (shutdown_purge_translate_lock Scripted.env (VNum 7) Scripted.device_7
              (VNum 7) (VObj [("id", VNum 31)]) (VNum 31) [] None w
              (mkWorld [inl locked]
                 [PineGet (device_by_id (VNum 7) device_and_application_options)]
                 1600000000000)
              eq_refl eq_refl eq_refl eq_refl) as [Hshutdown [_ Hupdate]].
  rewrite Hshutdown, Hupdate. split; reflexivity.
Defined.

(** The orphan device has no application: pinging it sends nothing. *)
Lemma supervisor_requests_need_an_application_witness :
  let w := Scripted.world [inr Fleet.orphan; inr (VStr "unused")] in
  ping Scripted.env (VNum 13) w
  = (Rejected (TypeError "Cannot read property 'id' of undefined"),
     mkWorld [inr (VStr "unused")]
       [PineGet (device_by_id (VNum 13) device_and_application_options)]
       1600000000000).
Proof.
  intros w.
  exact (proj2 (proj2 (proj2
           (supervisor_requests_need_an_application Scripted.env (VNum 13)
              Fleet.orphan (VNum 13) VUndefined w
              (mkWorld [inr (VStr "unused")]
                 [PineGet (device_by_id (VNum 13) device_and_application_options)]
                 1600000000000)
              eq_refl eq_refl eq_refl)))).
Defined.

(** ** Removal *)

Section Removal.
Context {B : Type} (env : Env B).

Lemma get_several_is_ambiguous (s : string) options first second others (w : World B) :
  fst (pine_get_handler env (device_by_uuid (VStr s) options) (backend w))
  = inr (VArr (first :: second :: others)) ->
  get env (VStr s) options w
  = (Rejected (BalenaAmbiguousDevice (VStr s)),
     after PineGet (pine_get_handler env) (device_by_uuid (VStr s) options) w).
Proof.
  intros Hanswer. rewrite (get_by_uuid env (VStr s) options w eq_refl eq_refl), Hanswer.
  cbn [member String.eqb Ascii.eqb Bool.eqb].
  replace (strict_eq_num _ 0) with false.
  2:{ unfold strict_eq_num. symmetry. apply Z.eqb_neq. cbn [List.length]. lia. }
  replace (gt_num _ 1) with true; [reflexivity|].
  unfold gt_num, ToNumber. symmetry. apply Z.ltb_lt. cbn [List.length]. lia.
Qed.

(** X6: [device.remove] deletes nothing unless the lookup found one
    device.  When [device.get] is rejected, [remove] is rejected with the
    same error and no [pine.delete] is issued; in particular a uuid
    prefix that matches several devices removes none of them.  When the
    device is found, one [pine.delete] on 'device' follows, filtered on
    the full uuid of the device found, not on what the caller typed. *)
Theorem remove_needs_one_device (uuidOrId : value) (w : World B) :
  (forall e w1,
      get env uuidOrId (select_only (VStr "uuid")) w = (Rejected e, w1) ->
      remove env uuidOrId w = (Rejected e, w1))
  /\ (forall s first second others,
         uuidOrId = VStr s ->
         fst (pine_get_handler env
                (device_by_uuid (VStr s) (select_only (VStr "uuid"))) (backend w))
         = inr (VArr (first :: second :: others)) ->
         remove env uuidOrId w
         = (Rejected (BalenaAmbiguousDevice uuidOrId),
            after PineGet (pine_get_handler env)
              (device_by_uuid (VStr s) (select_only (VStr "uuid"))) w))
  /\ (forall device uuid w1,
         get env uuidOrId (select_only (VStr "uuid")) w = (Resolved device, w1) ->
         member device "uuid" = inr uuid ->
         let deletion :=
           {| resource := "device"; id := None; body := None;
              options :=
                Some (mkPineOptions (Some (VObj [("uuid", uuid)])) None None None) |} in
         remove env uuidOrId w
         = (settle (fst (pine_delete_handler env deletion (backend w1))),
            after PineDelete (pine_delete_handler env) deletion w1)).
Proof.
  split; [|split].
  - intros e w1 G. unfold remove. apply then_rejected. exact G.
  - intros s first second others Hs Hanswer. subst uuidOrId.
    unfold remove. apply then_rejected.
    apply get_several_is_ambiguous with (1 := Hanswer).
  - intros device uuid w1 G Hu deletion. unfold remove.
    rewrite (then_resolved _ _ _ _ _ G), sync_bind, Hu.
    apply Promise_try_call.
Qed.

(** X7: [serviceVar.remove] deletes nothing when the device is not
    found.  When it is found, one [pine.delete] on
    device_service_environment_variable follows, for the variables of
    that name on the service installs of that device's id and the given
    service id. *)
Theorem serviceVar_remove_scoped_to_device (uuidOrId serviceId key : value)
    (w : World B) :
  (forall e w1,
      get env uuidOrId (select_only (VStr "id")) w = (Rejected e, w1) ->
      serviceVar_remove env uuidOrId serviceId key w = (Rejected e, w1))
  /\ (forall device deviceId w1,
         get env uuidOrId (select_only (VStr "id")) w = (Resolved device, w1) ->
         member device "id" = inr deviceId ->
         let deletion :=
           {| resource := "device_service_environment_variable";
              id := None; body := None;
              options :=
                Some (mkPineOptions
                        (Some (VObj [("service_install",
                                      VObj [("$any",
                                             VObj [("$alias", VStr "si");
                                                   ("$expr",
                                                    VObj [("si",
                                                           VObj [("device", deviceId);
                                                                 ("service", serviceId)])])])]);
                                     ("name", key)]))
                        None None None) |} in
         serviceVar_remove env uuidOrId serviceId key w
         = (settle (fst (pine_delete_handler env deletion (backend w1))),
            after PineDelete (pine_delete_handler env) deletion w1)).
Proof.
  split.
  - intros e w1 G. unfold serviceVar_remove.
    apply then_rejected, get_prop_rejected. exact G.
  - intros device deviceId w1 G Hid deletion.
    pose proof (get_prop_resolved _ "id" _ _ _ G) as Gid.
    rewrite Hid in Gid. cbn [settle] in Gid.
    unfold serviceVar_remove. rewrite (then_resolved _ _ _ _ _ Gid).
    apply Promise_try_call.
Qed.

End Removal.

(** The prefix 7cf02a matches devices 7 and 8: neither is removed. *)
Lemma remove_needs_one_device_witness :
  let w := Scripted.world
             [inr (VArr [Scripted.device_7; Scripted.device_8]); inr (VStr "unused")] in
  remove Scripted.env (VStr "7cf02a") w
  = (Rejected (BalenaAmbiguousDevice (VStr "7cf02a")),
     mkWorld [inr (VStr "unused")]
       [PineGet (device_by_uuid (VStr "7cf02a") (select_only (VStr "uuid")))]
       1600000000000).
Proof.
  intros w.
  destruct (remove_needs_one_device Scripted.env (VStr "7cf02a") w) as [_ [H _]].
  exact (H "7cf02a" Scripted.device_7 Scripted.device_8 [] eq_refl eq_refl).
Defined.

(** Removing the variable API_KEY of service 5 from device 7. *)
Lemma serviceVar_remove_scoped_to_device_witness :
  let w := Scripted.world [inr Scripted.device_7; inr (VStr "OK")] in
  fst (serviceVar_remove Scripted.env (VNum 7) (VNum 5) (VStr "API_KEY") w)
  = Resolved (VStr "OK").
Proof.
  intros w.
  destruct (serviceVar_remove_scoped_to_device Scripted.env (VNum 7) (VNum 5)
              (VStr "API_KEY") w) as [_ H].
  rewrite (H Scripted.device_7 (VNum 7)
             (mkWorld [inr (VStr "OK")]
                [PineGet (device_by_id (VNum 7) (select_only (VStr "id")))]
                1600000000000)
             eq_refl eq_refl).
  reflexivity.
Defined.

(** ** Requests by device id *)

Section ByDeviceId.
Context {B : Type} (env : Env B).

(** X8: for a numeric id [device.restartApplication] does not look the
    device up: it sends one POST to '/device/<id>/restart', with the
    timeout of the container actions, and nothing else.  A not-found
    response goes to [treatAsMissingDevice(uuidOrId)]; every other error
    of the request, the locked status included, is passed on unchanged;
    on success the operation resolves with the body of the response. *)
Theorem restartApplication_by_id (n : Z) (w : World B) :
  let r := {| method := "POST";
              url := "/device/" ++ Z_to_string n ++ "/restart";
              baseUrl := apiUrl env;
              requestBody := None;
              timeout := Some 50000 |} in
  snd (restartApplication env (VNum n) w)
  = after RequestSend (request_send_handler env) r w
  /\ match fst (request_send_handler env r (backend w)) with
     | inl err =>
         if isNotFoundResponse env err
         then fst (restartApplication env (VNum n) w)
              = settle (treatAsMissingDevice env (VNum n) err)
         else fst (restartApplication env (VNum n) w) = Rejected err
     | inr (VObj response) =>
         fst (restartApplication env (VNum n) w)
         = Resolved (match lookup "body" response with
                     | Some b => b
                     | None => VUndefined
                     end)
     | inr _ => True
     end.
Proof.
  intros r.
  set (inner :=
         then_ (getId env (VNum n))
           (fun deviceId =>
              request_send env
                {| method := "POST";
                   url := "/device/" ++ ToString deviceId ++ "/restart";
                   baseUrl := apiUrl env;
                   requestBody := None;
                   timeout := Some CONTAINER_ACTION_ENDPOINT_TIMEOUT |})).
  assert (Hinner : inner w
                   = (settle (fst (request_send_handler env r (backend w))),
                      after RequestSend (request_send_handler env) r w)).
  { unfold inner. rewrite (then_resolved _ _ _ _ _ (getId_numeric env n w)).
    apply Promise_try_call. }
  change (restartApplication env (VNum n) w)
    with (catch_ (get_prop inner "body") (isNotFoundResponse env)
            (fun err => sync (treatAsMissingDevice env (VNum n) err)) w).
  destruct (fst (request_send_handler env r (backend w))) as [err | response];
    cbn [settle] in Hinner.
  - rewrite (catch_rejected _ _ _ _ _ _ (get_prop_rejected _ _ _ _ _ Hinner)).
    destruct (isNotFoundResponse env err).
    + rewrite Promise_try_sync. split; reflexivity.
    + split; reflexivity.
  - pose proof (get_prop_resolved _ "body" _ _ _ Hinner) as Hbody.
    destruct (member response "body") as [e | b] eqn:Hm; cbn [settle] in Hbody.
    + rewrite (catch_rejected _ _ _ _ _ _ Hbody).
      destruct (isNotFoundResponse env e); [rewrite Promise_try_sync|];
        (split; [reflexivity|]); destruct response; try exact I; discriminate.
    + rewrite (catch_resolved _ _ _ _ _ _ Hbody).
      split; [reflexivity|]. destruct response; try exact I.
      cbn in Hm. inversion Hm. reflexivity.
Qed.

(** X9: the lock override of a device given by its numeric id.
    [enableLockOverride] and [disableLockOverride] send one POST to
    '/device/<id>/lock-override' whose body is [{ value: '1' }] and
    [{ value: '0' }]; [hasLockOverride] sends one GET to the same URL and
    resolves with a boolean that is true exactly when the body of the
    response is the string '1'.  None of them looks the device up. *)
Theorem lock_override_by_id (n : Z) (w : World B) :
  let path := "/device/" ++ Z_to_string n ++ "/lock-override" in
  let post value :=
    {| method := "POST"; url := path; baseUrl := apiUrl env;
       requestBody := Some (VObj [("value", VStr value)]); timeout := None |} in
  let query :=
    {| method := "GET"; url := path; baseUrl := apiUrl env;
       requestBody := None; timeout := None |} in
  enableLockOverride env (VNum n) w
  = (settle (fst (request_send_handler env (post "1") (backend w))),
     after RequestSend (request_send_handler env) (post "1") w)
  /\ disableLockOverride env (VNum n) w
     = (settle (fst (request_send_handler env (post "0") (backend w))),
        after RequestSend (request_send_handler env) (post "0") w)
  /\ snd (hasLockOverride env (VNum n) w)
     = after RequestSend (request_send_handler env) query w
  /\ match fst (request_send_handler env query (backend w)) with
     | inl err => fst (hasLockOverride env (VNum n) w) = Rejected err
     | inr (VObj response) =>
         exists overridden,
           fst (hasLockOverride env (VNum n) w) = Resolved (VBool overridden)
           /\ (overridden = true <-> lookup "body" response = Some (VStr "1"))
     | inr _ => True
     end.
Proof.
  intros path post query.
  split; [|split].
  - unfold enableLockOverride, setLockOverriden.
    rewrite (then_resolved _ _ _ _ _ (getId_numeric env n w)).
    apply Promise_try_call.
  - unfold disableLockOverride, setLockOverriden.
    rewrite (then_resolved _ _ _ _ _ (getId_numeric env n w)).
    apply Promise_try_call.
  - assert (Hinner :
              then_ (getId env (VNum n))
                (fun deviceId =>
                   request_send env
                     {| method := "GET";
                        url := "/device/" ++ ToString deviceId ++ "/lock-override";
                        baseUrl := apiUrl env;
                        requestBody := None;
                        timeout := None |}) w
              = (settle (fst (request_send_handler env query (backend w))),
                 after RequestSend (request_send_handler env) query w)).
    { rewrite (then_resolved _ _ _ _ _ (getId_numeric env n w)).
      apply Promise_try_call. }
    unfold hasLockOverride.
    destruct (fst (request_send_handler env query (backend w))) as [err | response];
      cbn [settle] in Hinner.
    + rewrite (then_rejected _ _ _ _ _ Hinner). split; reflexivity.
    + rewrite (then_resolved _ _ _ _ _ Hinner), sync_bind.
      destruct response as [ | | b | m | t | items | fields];
        try (split; [reflexivity | exact I]).
      cbn [member]. split; [reflexivity|].
      eexists. split; [reflexivity|].
      destruct (lookup "body" fields) as [body|].
      * rewrite strict_eq_prim_string. split; intros H; congruence.
      * split; discriminate.
Qed.

End ByDeviceId.

(** ** Releases *)

Section Releases.
Context {B : Type} (env : Env B).

(** X10: [device.getTargetReleaseHash] on a device that was found.  A
    release the device is pinned to wins: the operation resolves with
    its commit, whatever the application says.  Without one, it resolves
    with the commit of the release the first application should be
    running, and with undefined when that application has none.  Nothing
    is asked of the remote side past the lookup. *)
Theorem getTargetReleaseHash_prefers_pinned (uuidOrId device applications : value)
    (pinned : list value) (w w1 : World B) :
  get env uuidOrId target_release_options w = (Resolved device, w1) ->
  member device "should_be_running__release" = inr (VArr pinned) ->
  member device "belongs_to__application" = inr applications ->
  snd (getTargetReleaseHash env uuidOrId w) = w1
  /\ (forall release others commit,
         pinned = release :: others ->
         member release "commit" = inr commit ->
         fst (getTargetReleaseHash env uuidOrId w) = Resolved commit)
  /\ (forall app otherApps releases,
         pinned = [] ->
         applications = VArr (app :: otherApps) ->
         member app "should_be_running__release" = inr (VArr releases) ->
         (releases = [] ->
          fst (getTargetReleaseHash env uuidOrId w) = Resolved VUndefined)
         /\ (forall target rest commit,
                releases = target :: rest ->
                ToBoolean target = true ->
                member target "commit" = inr commit ->
                fst (getTargetReleaseHash env uuidOrId w) = Resolved commit)).
Proof.
  intros G Hpinned Happs.
  assert (E : getTargetReleaseHash env uuidOrId w
              = Promise_try
                  (if gt_num (VNum (Z.of_nat (List.length pinned))) 0
                   then
                     release <- sync (index (VArr pinned) 0) ;;
                     sync (member release "commit")
                   else
                     app <- sync (index applications 0) ;;
                     releases <- sync (member app "should_be_running__release") ;;
                     targetRelease <- sync (index releases 0) ;;
                     if ToBoolean targetRelease
                     then sync (member targetRelease "commit")
                     else ret VUndefined) w1).
  { unfold getTargetReleaseHash.
    rewrite (then_resolved _ _ _ _ _ G), sync_bind, Hpinned, sync_bind, Happs,
      sync_bind.
    reflexivity. }
  rewrite E. split; [|split].
  - destruct pinned as [|release others]; cbn [List.length gt_num ToNumber].
    + change (0 <? Z.of_nat 0) with false. cbv iota.
      rewrite sync_bind. destruct (index applications 0) as [e | app]; [reflexivity|].
      rewrite sync_bind.
      destruct (member app "should_be_running__release") as [e | releases];
        [reflexivity|].
      rewrite sync_bind. destruct (index releases 0) as [e | target]; [reflexivity|].
      destruct (ToBoolean target); [apply (f_equal snd (Promise_try_sync _ w1))|].
      reflexivity.
    + replace (0 <? Z.of_nat (S (List.length others))) with true
        by (symmetry; apply Z.ltb_lt; lia).
      cbv iota. rewrite sync_bind. cbn [index nth].
      apply (f_equal snd (Promise_try_sync _ w1)).
  - intros release others commit Hp Hcommit. subst pinned.
    cbn [List.length gt_num ToNumber].
    replace (0 <? Z.of_nat (S (List.length others))) with true
      by (symmetry; apply Z.ltb_lt; lia).
    cbv iota. rewrite sync_bind. cbn [index nth]. rewrite Promise_try_sync, Hcommit.
    reflexivity.
  - intros app otherApps releases Hp Ha Hreleases. subst pinned applications.
    cbn [List.length gt_num ToNumber]. change (0 <? Z.of_nat 0) with false. cbv iota.
    rewrite sync_bind. cbn [index nth]. rewrite sync_bind, Hreleases, sync_bind.
    split.
    + intros ->. reflexivity.
    + intros target rest commit -> Htruthy Hcommit. cbn [index nth].
      rewrite Htruthy, Promise_try_sync, Hcommit. reflexivity.
Qed.

(** X11: [device.isTrackingApplicationRelease] resolves with a boolean
    that is true exactly when the should_be_running__release of the
    device found is falsy (null or missing), and asks nothing more of
    the remote side; [device.trackApplicationRelease] of a numeric id
    patches that field of the device with that id to null, without a
    lookup. *)
Theorem release_tracking (uuidOrId : value) (n : Z) (w : World B) :
  (forall device release w1,
      get env uuidOrId (select_only (VStr "should_be_running__release")) w
      = (Resolved device, w1) ->
      member device "should_be_running__release" = inr release ->
      isTrackingApplicationRelease env uuidOrId w
      = (Resolved (VBool (negb (ToBoolean release))), w1))
  /\ let patch :=
       {| resource := "device"; id := Some (VNum n);
          body := Some (VObj [("should_be_running__release", VNull)]);
          options := None |} in
     trackApplicationRelease env (VNum n) w
     = (settle (fst (pine_patch_handler env patch (backend w))),
        after PinePatch (pine_patch_handler env) patch w).
Proof.
  split.
  - intros device release w1 G Hrelease. unfold isTrackingApplicationRelease.
    rewrite (then_resolved _ _ _ _ _ G), sync_bind, Hrelease. reflexivity.
  - intros patch. unfold trackApplicationRelease.
    rewrite (then_resolved _ _ _ _ _ (getId_numeric env n w)).
    apply Promise_try_call.
Qed.

End Releases.

(** Device 7 is pinned to a release; its application targets another. *)
Lemma getTargetReleaseHash_prefers_pinned_witness :
  getTargetReleaseHash Scripted.env (VNum 7) (Scripted.world [inr Fleet.pinned])
  = (Resolved (VStr "abc123"),
     mkWorld [] [PineGet (device_by_id (VNum 7) target_release_options)] 1600000000000).
Proof.
  destruct (getTargetReleaseHash_prefers_pinned Scripted.env (VNum 7) Fleet.pinned
              (VArr [Fleet.application_31])
              [VObj [("commit", VStr "abc123")]]
              (Scripted.world [inr Fleet.pinned])
              (mkWorld [] [PineGet (device_by_id (VNum 7) target_release_options)]
                 1600000000000)
              eq_refl eq_refl eq_refl) as [Hworld [Hpinned _]].
  rewrite (surjective_pairing (getTargetReleaseHash _ _ _)), Hworld,
    (Hpinned (VObj [("commit", VStr "abc123")]) [] (VStr "abc123") eq_refl eq_refl).
  reflexivity.
Defined.

(** A device that is not pinned tracks the release of its application. *)
Lemma release_tracking_witness :
  let device := VObj [("should_be_running__release", VNull)] in
  fst (isTrackingApplicationRelease Scripted.env (VNum 7) (Scripted.world [inr device]))
  = Resolved (VBool true).
Proof.
  intros device.
  destruct (release_tracking Scripted.env (VNum 7) 7 (Scripted.world [inr device]))
    as [H _].
  rewrite (H device VNull
             (mkWorld []
                [PineGet (device_by_id (VNum 7)
                            (select_only (VStr "should_be_running__release")))]
                1600000000000)
             eq_refl eq_refl).
  reflexivity.
Defined.

(** ** Checks before an OS update *)

Section OsUpdateChecks.
Variable getDeviceOsSemverWithVariant : value -> error + value.
Variable getHUPActionType : value -> value -> value -> error + value.

Lemma strict_eq_undefined v : strict_eq_prim VUndefined v = true <-> v = VUndefined.
Proof. destruct v; cbn; split; congruence. Qed.

(** X12: [device._checkOsUpdateTarget] on a device object.  It throws
    the first of these errors that applies, in this order: the uuid is
    not available (uuid falsy), the device is offline (is_online falsy),
    the current os version is not available (os_version falsy), the
    device type is not available (device_type falsy), the os variant is
    not available (os_variant undefined, that is missing).  It returns
    exactly when none applies and neither helper throws; an os_variant of
    null does pass.  The version handed to [getHUPActionType] is the one
    [getDeviceOsSemverWithVariant] gives, or the raw os_version when that
    is falsy. *)
Theorem checkOsUpdateTarget_validates (fields : list (string * value))
    (targetOsVersion : value) :
  let field key :=
    match lookup key fields with
    | Some v => v
    | None => VUndefined
    end in
  let uuid := field "uuid" in
  let failure message : error + unit := inl (Error message) in
  let result :=
    _checkOsUpdateTarget getDeviceOsSemverWithVariant getHUPActionType
      (VObj fields) targetOsVersion in
  (ToBoolean uuid = false ->
   result = failure "The uuid of the device is not available")
  /\ (ToBoolean uuid = true -> ToBoolean (field "is_online") = false ->
      result = failure ("The device is offline: " ++ ToString uuid))
  /\ (ToBoolean uuid = true -> ToBoolean (field "is_online") = true ->
      ToBoolean (field "os_version") = false ->
      result = failure ("The current os version of the device is not available: "
                          ++ ToString uuid))
  /\ (ToBoolean uuid = true -> ToBoolean (field "is_online") = true ->
      ToBoolean (field "os_version") = true ->
      ToBoolean (field "device_type") = false ->
      result = failure ("The device type of the device is not available: "
                          ++ ToString uuid))
  /\ (ToBoolean uuid = true -> ToBoolean (field "is_online") = true ->
      ToBoolean (field "os_version") = true ->
      ToBoolean (field "device_type") = true ->
      field "os_variant" = VUndefined ->
      result = failure ("The os variant of the device is not available: "
                          ++ ToString uuid))
  /\ (result = inr tt
      <-> ToBoolean uuid = true
          /\ ToBoolean (field "is_online") = true
          /\ ToBoolean (field "os_version") = true
          /\ ToBoolean (field "device_type") = true
          /\ field "os_variant" <> VUndefined
          /\ exists parsed action,
              getDeviceOsSemverWithVariant
                (VObj [("os_version", field "os_version");
                       ("os_variant", field "os_variant")]) = inr parsed
              /\ getHUPActionType (field "device_type")
                   (if ToBoolean parsed then parsed else field "os_version")
                   targetOsVersion = inr action).
Proof.
  intros field uuid failure result.
  assert (E : result
              = if negb (ToBoolean uuid)
                then failure "The uuid of the device is not available"
                else if negb (ToBoolean (field "is_online"))
                then failure ("The device is offline: " ++ ToString uuid)
                else if negb (ToBoolean (field "os_version"))
                then failure ("The current os version of the device is not available: "
                                ++ ToString uuid)
                else if negb (ToBoolean (field "device_type"))
                then failure ("The device type of the device is not available: "
                                ++ ToString uuid)
                else if strict_eq_prim VUndefined (field "os_variant")
                then failure ("The os variant of the device is not available: "
                                ++ ToString uuid)
                else
                  match getDeviceOsSemverWithVariant
                          (VObj [("os_version", field "os_version");
                                 ("os_variant", field "os_variant")]) with
                  | inl e => inl e
                  | inr parsed =>
                      match getHUPActionType (field "device_type")
                              (if ToBoolean parsed then parsed else field "os_version")
                              targetOsVersion with
                      | inl e => inl e
                      | inr _ => inr tt
                      end
                  end) by reflexivity.
  rewrite E. clear E.
  destruct (ToBoolean uuid); cbn [negb].
  2:{ repeat split; try discriminate; try reflexivity.
      intros [H _]. discriminate. }
  destruct (ToBoolean (field "is_online")); cbn [negb].
  2:{ repeat split; try discriminate; try reflexivity.
      intros [_ [H _]]. discriminate. }
  destruct (ToBoolean (field "os_version")); cbn [negb].
  2:{ repeat split; try discriminate; try reflexivity.
      intros [_ [_ [H _]]]. discriminate. }
  destruct (ToBoolean (field "device_type")); cbn [negb].
  2:{ repeat split; try discriminate; try reflexivity.
      intros [_ [_ [_ [H _]]]]. discriminate. }
  destruct (strict_eq_prim VUndefined (field "os_variant")) eqn:Hvariant.
  { apply strict_eq_undefined in Hvariant.
    repeat split; try discriminate; try reflexivity.
    intros [_ [_ [_ [_ [H _]]]]]. contradiction. }
  assert (Hdefined : field "os_variant" <> VUndefined).
  { intros H. apply strict_eq_undefined in H. congruence. }
  repeat split; try discriminate; try assumption.
  - intros _ _ _ _ H. contradiction.
  - destruct (getDeviceOsSemverWithVariant _) as [e | parsed]; [discriminate|].
    destruct (getHUPActionType _ _ _) as [e | action] eqn:Haction; [discriminate|].
    exists parsed, action. split; [reflexivity | exact Haction].
  - intros [_ [_ [_ [_ [_ [parsed [action [Hparsed Haction]]]]]]]].
    rewrite Hparsed, Haction. reflexivity.
Qed.

End OsUpdateChecks.

(** A device that reports no os_variant at all is refused; the helpers
    are not consulted. *)
Lemma checkOsUpdateTarget_validates_witness :
  _checkOsUpdateTarget (fun _ => inr VNull) (fun _ _ _ => inr (VStr "balenahup"))
    (VObj [("uuid", VStr "7cf02a6"); ("is_online", VBool true);
           ("os_version", VStr "balenaOS 2.48.0+rev1");
           ("device_type", VStr "raspberrypi3")])
    (VStr "2.50.1+rev1.prod")
  = inl (Error "The os variant of the device is not available: 7cf02a6").
Proof.
  destruct (checkOsUpdateTarget_validates
              (fun _ => inr VNull) (fun _ _ _ => inr (VStr "balenahup"))
              [("uuid", VStr "7cf02a6"); ("is_online", VBool true);
               ("os_version", VStr "balenaOS 2.48.0+rev1");
               ("device_type", VStr "raspberrypi3")]
              (VStr "2.50.1+rev1.prod")) as [_ [_ [_ [_ [H _]]]]].
  exact (H eq_refl eq_refl eq_refl eq_refl eq_refl).
Defined.

Example checkOsUpdateTarget_null_variant :
  _checkOsUpdateTarget (fun _ => inr VNull) (fun _ _ _ => inr (VStr "balenahup"))
    (VObj [("uuid", VStr "7cf02a6"); ("is_online", VBool true);
           ("os_version", VStr "balenaOS 2.48.0+rev1");
           ("device_type", VStr "raspberrypi3"); ("os_variant", VNull)])
    (VStr "2.50.1+rev1.prod")
  = inr tt.
Proof. reflexivity. Qed.

(** ** Errors reach the caller through the promise *)

Section NoThrow.
Context {B : Type} (env : Env B).

Lemma call_never_throws {Req} (record : Req -> Effect) (h : Handler B Req) req :
  never_throws (call record h req).
Proof.
  intros w e w'. rewrite call_run.
  destruct (fst (h req (backend w))); discriminate.
Qed.

Lemma catch_never_throws {A} (p : Promise B A) predicate handler :
  never_throws p -> never_throws (catch_ p predicate handler).
Proof.
  intros Hp w e w'. unfold catch_.
  destruct (p w) as [[a | e0 | e0] w0] eqn:Ep.
  - discriminate.
  - destruct (predicate e0); [apply Promise_try_never_throws | discriminate].
  - exfalso. exact (Hp _ _ _ Ep).
Qed.

Ltac no_throw :=
  repeat first
    [ apply get_never_throws
    | apply Promise_try_never_throws
    | apply then_never_throws
    | apply catch_never_throws
    | apply call_never_throws ].

(** X13: the operations of the device model report their errors by
    rejecting the promise they return; they never throw.  This holds of
    every operation below, whatever the identifier, the arguments and
    the answers of the remote side.  [grantSupportAccess] is the
    exception: it throws on an expiryTimestamp that is null. *)
Theorem operations_never_throw (uuidOrId other third : value)
    (callerOptions : option PineOptions) :
  never_throws (get env uuidOrId callerOptions)
  /\ never_throws (getAllByParentDevice env uuidOrId callerOptions)
  /\ never_throws (getName env uuidOrId)
  /\ never_throws (getApplicationName env uuidOrId)
  /\ never_throws (getApplicationInfo env uuidOrId)
  /\ never_throws (has env uuidOrId)
  /\ never_throws (isOnline env uuidOrId)
  /\ never_throws (getLocalIPAddresses env uuidOrId)
  /\ never_throws (remove env uuidOrId)
  /\ never_throws (identify env uuidOrId)
  /\ never_throws (rename env uuidOrId other)
  /\ never_throws (note env uuidOrId other)
  /\ never_throws (setCustomLocation env uuidOrId other)
  /\ never_throws (unsetCustomLocation env uuidOrId)
  /\ never_throws (startApplication env uuidOrId)
  /\ never_throws (stopApplication env uuidOrId)
  /\ never_throws (restartApplication env uuidOrId)
  /\ never_throws (startService env uuidOrId other)
  /\ never_throws (stopService env uuidOrId other)
  /\ never_throws (restartService env uuidOrId other)
  /\ never_throws (reboot env uuidOrId other)
  /\ never_throws (shutdown env uuidOrId other)
  /\ never_throws (purge env uuidOrId)
  /\ never_throws (update env uuidOrId other)
  /\ never_throws (getSupervisorState env uuidOrId)
  /\ never_throws (hasDeviceUrl env uuidOrId)
  /\ never_throws (enableDeviceUrl env uuidOrId)
  /\ never_throws (disableDeviceUrl env uuidOrId)
  /\ never_throws (enableLockOverride env uuidOrId)
  /\ never_throws (disableLockOverride env uuidOrId)
  /\ never_throws (hasLockOverride env uuidOrId)
  /\ never_throws (ping env uuidOrId)
  /\ never_throws (revokeSupportAccess env uuidOrId)
  /\ never_throws (isTrackingApplicationRelease env uuidOrId)
  /\ never_throws (getTargetReleaseHash env uuidOrId)
  /\ never_throws (trackApplicationRelease env uuidOrId)
  /\ never_throws (serviceVar_get env uuidOrId other third)
  /\ never_throws (serviceVar_remove env uuidOrId other third)
  /\ forall w,
      fst (grantSupportAccess env uuidOrId VNull w)
      = Thrown (BalenaInvalidParameterError "expiryTimestamp" VNull).
Proof.
  repeat match goal with |- _ /\ _ => split end;
    try (unfold getAllByParentDevice, getName, getApplicationName, getApplicationInfo,
           has, isOnline, getLocalIPAddresses, remove, identify, rename, note,
           unsetCustomLocation, setCustomLocation, startApplication, stopApplication,
           restartApplication, startService, stopService, restartService, reboot,
           shutdown, purge, update, getSupervisorState, hasDeviceUrl, enableDeviceUrl,
           disableDeviceUrl, enableLockOverride, disableLockOverride, setLockOverriden,
           hasLockOverride, ping, revokeSupportAccess, isTrackingApplicationRelease,
           getTargetReleaseHash, trackApplicationRelease, serviceVar_get,
           serviceVar_remove, getId, get_prop, get_index, return_, tap;
         cbv zeta; solve [no_throw]).
  intros w. reflexivity.
Qed.

(** X14: [device.getApplicationInfo] is gated by the supervisor version
    like [startApplication]: once the device is found, it is rejected
    with the 'Incompatible supervisor version' error for 1.8.0-alpha.0
    when semver has the supervisor below that version, and its request
    goes out only when the version check has passed. *)
Theorem getApplicationInfo_is_gated (uuidOrId : value) (w : World B) :
  (forall device version w1,
      get env uuidOrId supervisor_device_options w = (Resolved device, w1) ->
      member device "supervisor_version" = inr version ->
      semver_lt env version "1.8.0-alpha.0" = inr true ->
      getApplicationInfo env uuidOrId w
      = (Rejected
           (Error ("Incompatible supervisor version: " ++ ToString version
                     ++ " - must be >= 1.8.0-alpha.0")), w1))
  /\ sent_only_if_compatible env "1.8.0-alpha.0" uuidOrId
       (getApplicationInfo env uuidOrId) w.
Proof.
  set (request := fun appId deviceId : value =>
         {| method := "POST";
            url := "/supervisor/v1/apps/" ++ ToString appId;
            baseUrl := apiUrl env;
            requestBody :=
              Some (VObj [("deviceId", deviceId); ("appId", appId);
                          ("method", VStr "GET")]);
            timeout := None |}).
  split.
  - intros device version w1 G Hv Hlt. unfold getApplicationInfo.
    apply get_prop_rejected.
    exact (supervisor_action_incompatible env "1.8.0-alpha.0" request uuidOrId
             device version w w1 G Hv Hlt).
  - eapply gated_by_world;
      [ | exact (supervisor_action_gated env "1.8.0-alpha.0" request uuidOrId w) ].
    unfold getApplicationInfo. rewrite get_prop_world. reflexivity.
Qed.

End NoThrow.

(** The supervisor of device 7 is too old for the application info. *)
Lemma getApplicationInfo_is_gated_witness :
  let w := Scripted.world [inr Scripted.device_7; inr (VStr "unused")] in
  getApplicationInfo Scripted.env (VNum 7) w
  = (Rejected
       (Error "Incompatible supervisor version: 1.7.0 - must be >= 1.8.0-alpha.0"),
     mkWorld [inr (VStr "unused")]
       [PineGet (device_by_id (VNum 7) supervisor_device_options)] 1600000000000).
Proof.
  intros w.
  destruct (getApplicationInfo_is_gated Scripted.env (VNum 7) w) as [H _].
  exact (H Scripted.device_7 (VStr "1.7.0")
           (mkWorld [inr (VStr "unused")]
              [PineGet (device_by_id (VNum 7) supervisor_device_options)]
              1600000000000)
           eq_refl eq_refl eq_refl).
Defined.

(** ** The inferred dashboard URL *)

Section DashboardUrl.
Context {B : Type} (env : Env B).

Lemma substring_whole s : String.substring 0 (String.length s) s = s.
Proof. induction s as [|c s IH]; cbn; [reflexivity | rewrite IH; reflexivity]. Qed.

Lemma prefix_api_inv s :
  String.prefix "api" s = true -> exists rest, s = "api" ++ rest.
Proof.
  intros H. apply String.prefix_correct in H.
  destruct s as [|c1 [|c2 [|c3 rest]]]; cbn in H; try discriminate.
  injection H as Hc1 Hc2 Hc3 _. subst c1 c2 c3. exists rest. reflexivity.
Qed.

Lemma replace_first_api_absent rep s :
  (forall a b, s <> a ++ "api" ++ b) -> replace_first "api" rep s = s.
Proof.
  induction s as [|c s IH]; intros Habsent; [reflexivity|].
  cbn [replace_first].
  destruct (String.prefix "api" (String c s)) eqn:Hp.
  - apply prefix_api_inv in Hp. destruct Hp as [rest Hrest].
    exfalso. exact (Habsent "" rest Hrest).
  - rewrite IH; [reflexivity|].
    intros a b Hs. apply (Habsent (String c a) b). cbn. rewrite Hs. reflexivity.
Qed.

Lemma replace_first_api_at rep pre post :
  (forall a b, pre ++ "ap" <> a ++ "api" ++ b) ->
  replace_first "api" rep (pre ++ "api" ++ post) = pre ++ rep ++ post.
Proof.
  induction pre as [|c pre IH]; intros Hfirst.
  - assert (Hp : String.prefix "api" (String "a" (String "p" (String "i" post))) = true).
    { apply String.prefix_correct. cbn. destruct post; reflexivity. }
    cbn [String.append replace_first]. rewrite Hp.
    cbn [String.length Nat.sub String.substring].
    rewrite Nat.sub_0_r, substring_whole. reflexivity.
  - change (String c pre ++ "api" ++ post) with (String c (pre ++ "api" ++ post)).
    change (String c pre ++ rep ++ post) with (String c (pre ++ rep ++ post)).
    cbn [replace_first].
    destruct (String.prefix "api" (String c (pre ++ "api" ++ post))) eqn:Hp.
    + exfalso. apply prefix_api_inv in Hp. destruct Hp as [rest Hrest].
      cbn in Hrest. inversion Hrest as [[Hc Hrest']]. subst c.
      destruct pre as [|x [|y pre']]; cbn in Hrest'.
      * inversion Hrest'.
      * inversion Hrest'.
      * inversion Hrest' as [[Hx Hy Hrest'']]. subst x y.
        exact (Hfirst "" (pre' ++ "ap") eq_refl).
    + rewrite IH; [reflexivity|].
      intros a b Hs. apply (Hfirst (String c a) b). cbn. rewrite Hs. reflexivity.
Qed.

(** X15: the dashboard URL of the model.  A configured dashboardUrl is
    used as it is.  Without one, the URL is the API URL with its first
    'api' replaced by 'dashboard': what precedes and what follows that
    first occurrence is kept, a later 'api' included.  An API URL
    without 'api' is the dashboard URL as it is. *)
Theorem dashboardUrl_replaces_first_api (pre post : string) :
  (forall configured, opts_dashboardUrl env = Some configured ->
                      dashboardUrl env = configured)
  /\ (opts_dashboardUrl env = None ->
      apiUrl env = pre ++ "api" ++ post ->
      (forall a b, pre ++ "ap" <> a ++ "api" ++ b) ->
      dashboardUrl env = pre ++ "dashboard" ++ post)
  /\ (opts_dashboardUrl env = None ->
      (forall a b, apiUrl env <> a ++ "api" ++ b) ->
      dashboardUrl env = apiUrl env).
Proof.
  unfold dashboardUrl. split; [|split].
  - intros configured ->. reflexivity.
  - intros -> -> Hfirst. apply replace_first_api_at. exact Hfirst.
  - intros -> Habsent. apply replace_first_api_absent. exact Habsent.
Qed.

End DashboardUrl.

(** The API of the scripted environment lives at api.balena-cloud.com. *)
Lemma dashboardUrl_replaces_first_api_witness :
  dashboardUrl Scripted.env = "https://dashboard.balena-cloud.com".
Proof.
  destruct (dashboardUrl_replaces_first_api Scripted.env "https://" ".balena-cloud.com")
    as [_ [H _]].
  apply H; [reflexivity | reflexivity |].
  intros a b Hs.
  destruct a as [|a1 [|a2 [|a3 [|a4 [|a5 [|a6 [|a7 [|a8 a']]]]]]]];
    cbn in Hs; try discriminate.
  - destruct a' as [|a9 [|a10 [|a11 a'']]]; cbn in Hs; discriminate.
Defined.

Example dashboardUrl_keeps_later_api :
  replace_first "api" "dashboard" "https://api.example.com/api/v5"
  = "https://dashboard.example.com/api/v5".
Proof. reflexivity. Qed.

(** ** Patches of one field, and missing identifiers again *)

Section Patches.
Context {B : Type} (env : Env B).

(** X16: [rename], [note], [enableDeviceUrl] and [disableDeviceUrl] on a
    device that was found issue one [pine.patch] on 'device', selected by
    the full uuid of that device, whose body holds a single field:
    device_name with the new name, note with the note, and
    is_web_accessible with true and with false. *)
Theorem single_field_patches (uuidOrId newName noteText device uuid : value)
    (w w1 : World B) :
  get env uuidOrId (select_only (VStr "uuid")) w = (Resolved device, w1) ->
  member device "uuid" = inr uuid ->
  let patch field v :=
    {| resource := "device"; id := None;
       body := Some (VObj [(field, v)]);
       options := Some (mkPineOptions (Some (VObj [("uuid", uuid)])) None None None) |} in
  let patched p :=
    (settle (fst (pine_patch_handler env p (backend w1))),
     after PinePatch (pine_patch_handler env) p w1) in
  rename env uuidOrId newName w = patched (patch "device_name" newName)
  /\ note env uuidOrId noteText w = patched (patch "note" noteText)
  /\ enableDeviceUrl env uuidOrId w = patched (patch "is_web_accessible" (VBool true))
  /\ disableDeviceUrl env uuidOrId w
     = patched (patch "is_web_accessible" (VBool false)).
Proof.
  intros G Hu patch patched.
  repeat split;
    unfold rename, note, enableDeviceUrl, disableDeviceUrl;
    rewrite (then_resolved _ _ _ _ _ G), sync_bind, Hu;
    apply Promise_try_call.
Qed.

(** X17: on an identifier that is null or undefined the remaining
    operations are rejected with [BalenaDeviceNotFound] as well and ask
    nothing of the remote side: those that go through [device.get], and
    those that go through [getId] (the lock override,
    [trackApplicationRelease]).  [restartApplication] and [reboot] end
    in a handler for not-found responses; they are rejected with
    [BalenaDeviceNotFound] too as long as [isNotFoundResponse] does not
    take that error for a response. *)
Theorem nullish_identifier_elsewhere (uuidOrId : value) (w : World B) :
  is_nullish uuidOrId = true ->
  let missing := (Rejected (A := value) (BalenaDeviceNotFound uuidOrId), w) in
  (forall options, getAllByParentDevice env uuidOrId options w = missing)
  /\ getApplicationName env uuidOrId w = missing
  /\ getApplicationInfo env uuidOrId w = missing
  /\ getLocalIPAddresses env uuidOrId w = missing
  /\ identify env uuidOrId w = missing
  /\ (forall noteText, note env uuidOrId noteText w = missing)
  /\ (forall options, shutdown env uuidOrId options w = missing)
  /\ purge env uuidOrId w = missing
  /\ (forall options, update env uuidOrId options w = missing)
  /\ getSupervisorState env uuidOrId w = missing
  /\ hasDeviceUrl env uuidOrId w = missing
  /\ enableDeviceUrl env uuidOrId w = missing
  /\ disableDeviceUrl env uuidOrId w = missing
  /\ ping env uuidOrId w = missing
  /\ isTrackingApplicationRelease env uuidOrId w = missing
  /\ getTargetReleaseHash env uuidOrId w = missing
  /\ (forall serviceId key, serviceVar_remove env uuidOrId serviceId key w = missing)
  /\ enableLockOverride env uuidOrId w = missing
  /\ disableLockOverride env uuidOrId w = missing
  /\ hasLockOverride env uuidOrId w = missing
  /\ trackApplicationRelease env uuidOrId w = missing
  /\ (isNotFoundResponse env (BalenaDeviceNotFound uuidOrId) = false ->
      restartApplication env uuidOrId w = missing
      /\ forall options, reboot env uuidOrId options w = missing).
Proof.
  intros H missing. subst missing.
  pose proof (fun o => get_nullish env uuidOrId o w H) as G.
  pose proof (getId_nullish env uuidOrId w H) as Gid.
  repeat match goal with |- _ /\ _ => split end; intros;
    try solve
      [ apply then_get_nullish; exact H
      | apply get_prop_rejected; first [ apply G | apply then_get_nullish; exact H ]
      | apply then_rejected; first [ exact Gid | apply get_prop_rejected, G ]
      | apply then_rejected, then_rejected; exact Gid ].
  - unfold identify, return_. apply then_rejected, then_get_nullish. exact H.
  - split.
    + unfold restartApplication.
      erewrite catch_rejected;
        [ | apply get_prop_rejected, then_rejected; exact Gid ].
      match goal with Hnf : isNotFoundResponse _ _ = false |- _ => rewrite Hnf end.
      reflexivity.
    + intros options. unfold reboot.
      erewrite catch_rejected;
        [ | apply get_prop_rejected, then_rejected; exact Gid ].
      match goal with Hnf : isNotFoundResponse _ _ = false |- _ => rewrite Hnf end.
      reflexivity.
Qed.

End Patches.

(** Renaming the device with uuid 7cf02a6. *)
Lemma single_field_patches_witness :
  let w := Scripted.world [inr (VArr [Scripted.device_7]); inr (VStr "OK")] in
  rename Scripted.env (VStr "7cf02") (VStr "pantry") w
  = (Resolved (VStr "OK"),
     mkWorld []
       [PineGet (device_by_uuid (VStr "7cf02") (select_only (VStr "uuid")));
        PinePatch
          {| resource := "device"; id := None;
             body := Some (VObj [("device_name", VStr "pantry")]);
             options :=
               Some (mkPineOptions (Some (VObj [("uuid", VStr "7cf02a6")]))
                       None None None) |}]
       1600000000000).
Proof.
  intros w.
  exact (proj1 (single_field_patches Scripted.env (VStr "7cf02") (VStr "pantry")
                  VNull Scripted.device_7 (VStr "7cf02a6") w
                  (mkWorld [inr (VStr "OK")]
                     [PineGet (device_by_uuid (VStr "7cf02")
                                 (select_only (VStr "uuid")))]
                     1600000000000)
                  eq_refl eq_refl)).
Defined.

(** Rebooting the undefined device sends nothing. *)
Lemma nullish_identifier_elsewhere_witness :
  let w := Scripted.world [inr (VStr "unused")] in
  reboot Scripted.env VUndefined VUndefined w
  = (Rejected (BalenaDeviceNotFound VUndefined), w).
Proof.
  intros w.
  pose proof (nullish_identifier_elsewhere Scripted.env VUndefined w eq_refl) as H.
  cbv zeta in H.
  repeat match type of H with _ /\ _ => destruct H as [_ H] end.
  exact (proj2 (H eq_refl) VUndefined).
Defined.
